(** * The /search endpoint of the Search Assistant API (app.py)

    A shallow embedding of [search] and [ask_gemini] from app.py, with the
    three upstream services (Gemini, SerpAPI, YouTube Data API) as
    oracles of a [World], and the calls the handler makes recorded in a trace.

    Conventions of the embedding.
    - Text is a [string] of bytes holding the UTF-8 encoding of a Python
      str.  [strip] removes every character of which Python's [str.isspace]
      holds, the nineteen beyond ASCII (U+0085, U+00A0, U+1680, U+2000 to
      U+200A, U+2028, U+2029, U+202F, U+205F, U+3000) by their encodings.
    - [lower] lower-cases the letters A to Z and leaves the other bytes
      alone.  The code uses a lower-cased text only to compare it with
      "google", "youtube", "exit" and "quit"; there the two agree, since
      the only character beyond ASCII whose [str.lower()] is ASCII is U+212A
      KELVIN SIGN, which gives "k", a letter of none of these words (U+0130
      gives "i" followed by U+0307).
    - [repr] escapes the characters that are not printable; which these are
      beyond ASCII depends on the Unicode database of the interpreter, the
      parameter [Unicode].
    - Parsed JSON is the type [json], with integers for numbers; a Python
      dict is an association list whose first binding of a key is the one
      [dict.get] sees.
    - An exception that escapes the handler without being an [HTTPException]
      (KeyError, TypeError, AttributeError, pydantic's ValidationError) is
      [Uncaught]: FastAPI answers it with a bare status 500.
    - The imports inside the handler are taken to succeed.

    The command-line trial of main.py is embedded in the module [Cli]:
    [main] and its loop over a list of inputs, with what it prompts, prints
    and calls recorded in order. There the packages that can be imported are
    part of the environment, since main.py handles each ImportError, and an
    interrupt is taken to arrive at a prompt. *)

From Stdlib Require Import String Ascii List Bool Arith ZArith Lia.
From Stdlib Require Import DecimalString.
Import ListNotations.
Set Warnings "-register-all".
Local Open Scope list_scope.
Local Open Scope string_scope.

(** ** Python strings *)

Module PyStr.

(** Text is UTF-8. Python's [str.isspace] holds of ten characters of the
    ASCII range and of nineteen beyond it; [strip] removes them by their
    encodings. *)

(** TAB, LF, VT, FF, CR, the four separators FS, GS, RS, US, and SPACE. *)
Definition is_space (c : ascii) : bool :=
  let n := nat_of_ascii c in
  (((9 <=? n) && (n <=? 13)) || ((28 <=? n) && (n <=? 31)) || (n =? 32))%nat.

(** U+0085 (C2 85) and U+00A0 (C2 A0). *)
Definition is_space2 (a b : ascii) : bool :=
  let x := nat_of_ascii a in
  let y := nat_of_ascii b in
  ((x =? 194) && ((y =? 133) || (y =? 160)))%nat.

(** U+1680 (E1 9A 80), U+2000 to U+200A (E2 80 80 to E2 80 8A), U+2028,
    U+2029 and U+202F (E2 80 A8, A9, AF), U+205F (E2 81 9F) and U+3000
    (E3 80 80). *)
Definition is_space3 (a b c : ascii) : bool :=
  let x := nat_of_ascii a in
  let y := nat_of_ascii b in
  let z := nat_of_ascii c in
  (((x =? 225) && (y =? 154) && (z =? 128))
   || ((x =? 226) && (y =? 128)
       && (((128 <=? z) && (z <=? 138)) || (z =? 168) || (z =? 169)
           || (z =? 175)))
   || ((x =? 226) && (y =? 129) && (z =? 159))
   || ((x =? 227) && (y =? 128) && (z =? 128)))%nat.

(** [s.lstrip()] *)
Fixpoint lstrip (s : string) : string :=
  match s with
  | EmptyString => EmptyString
  | String a s1 =>
      if is_space a then lstrip s1
      else
        match s1 with
        | EmptyString => s
        | String b s2 =>
            if is_space2 a b then lstrip s2
            else
              match s2 with
              | EmptyString => s
              | String c s3 => if is_space3 a b c then lstrip s3 else s
              end
        end
  end.

(** Truth value of a string: [bool(s)]. *)
Definition nonempty (s : string) : bool :=
  match s with EmptyString => false | String _ _ => true end.

(** [s.rstrip()]: what is white space from some character to the end
    goes. *)
Fixpoint rstrip (s : string) : string :=
  match s with
  | EmptyString => EmptyString
  | String a s1 =>
      if nonempty (lstrip s) then String a (rstrip s1) else EmptyString
  end.

(** [s.strip()] *)
Definition strip (s : string) : string := rstrip (lstrip s).

Definition lower_char (c : ascii) : ascii :=
  let n := nat_of_ascii c in
  if ((65 <=? n) && (n <=? 90))%nat then ascii_of_nat (n + 32) else c.

(** [s.lower()] *)
Fixpoint lower (s : string) : string :=
  match s with
  | EmptyString => EmptyString
  | String c s' => String (lower_char c) (lower s')
  end.

(** A byte that continues a character: 80 to BF. *)
Definition is_continuation (c : ascii) : bool :=
  let n := nat_of_ascii c in ((128 <=? n) && (n <=? 191))%nat.

(** The characters of a string, each as a one-character string: a byte
    and the continuation bytes that follow it. *)
Fixpoint chars (s : string) : list string :=
  match s with
  | EmptyString => []
  | String c s' =>
      let r := chars s' in
      match s' with
      | EmptyString => String c EmptyString :: r
      | String c' _ =>
          if is_continuation c'
          then match r with
               | ch :: r' => String c ch :: r'
               | [] => [String c EmptyString]
               end
          else String c EmptyString :: r
      end
  end.

Definition newline : string := String (ascii_of_nat 10) EmptyString.
Definition dquote : string := String (ascii_of_nat 34) EmptyString.
(** U+2014 EM DASH in UTF-8. *)
Definition em_dash : string :=
  String (ascii_of_nat 226)
    (String (ascii_of_nat 128) (String (ascii_of_nat 148) EmptyString)).
(** U+00A0 NO-BREAK SPACE and U+3000 IDEOGRAPHIC SPACE in UTF-8. *)
Definition nbsp : string :=
  String (ascii_of_nat 194) (String (ascii_of_nat 160) EmptyString).
Definition ideographic_space : string :=
  String (ascii_of_nat 227)
    (String (ascii_of_nat 128) (String (ascii_of_nat 128) EmptyString)).

End PyStr.

(** ** Parsed JSON and the Python operations the handler applies to it *)

Inductive json : Type :=
| JNull
| JBool (b : bool)
| JNum (n : Z)
| JStr (s : string)
| JList (l : list json)
| JDict (d : list (string * json)).

Definition dict : Type := list (string * json).

(** What escapes the handler. *)
Inductive exc : Type :=
| HTTPException (status_code : nat) (detail : string)
| Uncaught.

Inductive outcome (A : Type) : Type :=
| Return (a : A)
| Raise (e : exc).
Arguments Return {A} a.
Arguments Raise {A} e.

Definition obind {A B} (o : outcome A) (k : A -> outcome B) : outcome B :=
  match o with
  | Return a => k a
  | Raise e => Raise e
  end.

(** A list comprehension whose body can raise: the first failure wins. *)
Fixpoint comprehension {A B} (f : A -> outcome B) (l : list A)
  : outcome (list B) :=
  match l with
  | [] => Return []
  | x :: l' =>
      obind (f x) (fun y => obind (comprehension f l') (fun ys => Return (y :: ys)))
  end.

(** What [repr] needs of the Unicode database of the interpreter:
    [str.isprintable] of a character beyond ASCII, by its code point. The
    database changes with the version of Python, so it is a parameter. *)
Class Unicode : Type := { isprintable : N -> bool }.

Module Py.

Fixpoint lookup (d : dict) (k : string) : option json :=
  match d with
  | [] => None
  | (k', v) :: d' => if String.eqb k k' then Some v else lookup d' k
  end.

(** [d.get(k, default)] on a dict. *)
Definition dict_get (d : dict) (k : string) (default : json) : json :=
  match lookup d k with
  | Some v => v
  | None => default
  end.

(** [v.get(k, default)] on any value: only a dict has [.get]
    (AttributeError otherwise). *)
Definition get (v : json) (k : string) (default : json) : outcome json :=
  match v with
  | JDict d => Return (dict_get d k default)
  | _ => Raise Uncaught
  end.

(** [v[k]] with a string key: KeyError on a dict without the key,
    TypeError on any other value. *)
Definition getitem (v : json) (k : string) : outcome json :=
  match v with
  | JDict d =>
      match lookup d k with
      | Some x => Return x
      | None => Raise Uncaught
      end
  | _ => Raise Uncaught
  end.

(** [bool(v)] *)
Definition truthy (v : json) : bool :=
  match v with
  | JNull => false
  | JBool b => b
  | JNum n => negb (Z.eqb n 0)
  | JStr s => PyStr.nonempty s
  | JList l => match l with [] => false | _ :: _ => true end
  | JDict d => match d with [] => false | _ :: _ => true end
  end.


(** [repr(s)] of a string: single quotes unless the string holds a single
    quote and no double quote; backslash and the chosen quote are escaped,
    TAB, LF and CR are written \t, \n and \r, and any other character that
    is not printable is written in hexadecimal: \xhh below U+0100, \uhhhh
    below U+10000, \Uhhhhhhhh from there. *)
Definition has_char (c : ascii) (s : string) : bool :=
  existsb (String.eqb (String c EmptyString)) (PyStr.chars s).

Definition hex_digit (n : nat) : ascii :=
  if (n <? 10)%nat then ascii_of_nat (48 + n) else ascii_of_nat (87 + n).

(** A character of the ASCII range. *)
Definition repr_char (quote c : ascii) : string :=
  let n := nat_of_ascii c in
  if Ascii.eqb c quote || Ascii.eqb c (ascii_of_nat 92)
  then String (ascii_of_nat 92) (String c EmptyString)
  else if (n =? 9)%nat then "\t"
  else if (n =? 10)%nat then "\n"
  else if (n =? 13)%nat then "\r"
  else if ((n <? 32) || (n =? 127))%nat
  then "\x" ++ String (hex_digit (n / 16)) (String (hex_digit (n mod 16)) EmptyString)
  else String c EmptyString.

(** The code point a character of two, three or four bytes encodes. *)
Definition code_point (ch : string) : option N :=
  let continues c := PyStr.is_continuation c in
  let low c := (N_of_ascii c - 128)%N in
  match ch with
  | String a (String b EmptyString) =>
      if continues b && (192 <=? N_of_ascii a)%N && (N_of_ascii a <=? 223)%N
      then Some ((N_of_ascii a - 192) * 64 + low b)%N
      else None
  | String a (String b (String c EmptyString)) =>
      if continues b && continues c
         && (224 <=? N_of_ascii a)%N && (N_of_ascii a <=? 239)%N
      then Some ((N_of_ascii a - 224) * 4096 + low b * 64 + low c)%N
      else None
  | String a (String b (String c (String d EmptyString))) =>
      if continues b && continues c && continues d
         && (240 <=? N_of_ascii a)%N && (N_of_ascii a <=? 247)%N
      then Some ((N_of_ascii a - 240) * 262144 + low b * 4096 + low c * 64
                 + low d)%N
      else None
  | _ => None
  end.

(** [n] in [width] hexadecimal digits. *)
Fixpoint hex (width : nat) (n : N) : string :=
  match width with
  | O => EmptyString
  | S w =>
      hex w (n / 16)%N
      ++ String (hex_digit (N.to_nat (n mod 16)%N)) EmptyString
  end.

Definition escape (cp : N) : string :=
  if (cp <? 256)%N then "\x" ++ hex 2 cp
  else if (cp <? 65536)%N then "\u" ++ hex 4 cp
  else "\U" ++ hex 8 cp.

Section Repr.

Context {U : Unicode}.

(** One character of a string, as [PyStr.chars] cuts them. *)
Definition repr_unichar (quote : ascii) (ch : string) : string :=
  match ch with
  | EmptyString => EmptyString
  | String a EmptyString =>
      if (N_of_ascii a <? 128)%N then repr_char quote a else ch
  | _ =>
      match code_point ch with
      | Some cp => if isprintable cp then ch else escape cp
      | None => ch
      end
  end.

Definition repr_str (s : string) : string :=
  let single := ascii_of_nat 39 in
  let double := ascii_of_nat 34 in
  let quote := if has_char single s && negb (has_char double s)
               then double else single in
  String quote (String.concat "" (map (repr_unichar quote) (PyStr.chars s))
                ++ String quote EmptyString).

(** [repr(v)] of a parsed JSON value. *)
Fixpoint repr (v : json) : string :=
  match v with
  | JNull => "None"
  | JBool true => "True"
  | JBool false => "False"
  | JNum n => NilZero.string_of_int (Z.to_int n)
  | JStr s => repr_str s
  | JList l => "[" ++ String.concat ", " (map repr l) ++ "]"
  | JDict d =>
      "{" ++ String.concat ", "
               (map (fun kv => repr_str (fst kv) ++ ": " ++ repr (snd kv)) d)
          ++ "}"
  end.

(** [str(v)], which is what an f-string field [{v}] inserts. *)
Definition str (v : json) : string :=
  match v with
  | JStr s => s
  | _ => repr v
  end.

End Repr.

(** [for i in v]: the elements of a list, the characters of a string, the
    keys of a dict; TypeError on None, a bool or a number. *)
Definition iter (v : json) : outcome (list json) :=
  match v with
  | JList l => Return l
  | JStr s => Return (map JStr (PyStr.chars s))
  | JDict d => Return (map (fun kv => JStr (fst kv)) d)
  | _ => Raise Uncaught
  end.

(** [for i in v[:5]]: only a list or a string can be sliced. *)
Definition iter_slice5 (v : json) : outcome (list json) :=
  match v with
  | JList l => Return (firstn 5 l)
  | JStr s => Return (map JStr (firstn 5 (PyStr.chars s)))
  | _ => Raise Uncaught
  end.

End Py.

(** ** pydantic models and configuration *)

Record QueryRequest : Type := { query : string }.

Record VideoResult : Type := {
  title : string;
  link : string;
  description : option string;
  channel : option string;
  views : option string
}.

Record SearchResponse : Type := {
  source : string;
  answer : option string;
  results : option (list VideoResult)
}.

(** The two optional keys read from the environment at import time.
    (GEMINI_API_KEY is checked there too: without it the module does not
    load, so the handler never runs.) *)
Record Config : Type := {
  YOUTUBE_API_KEY : option string;
  SERPAPI_API_KEY : option string
}.

(** [if KEY:] holds for a key that is set and not empty. *)
Definition configured (key : option string) : option string :=
  match key with
  | Some k => if PyStr.nonempty k then Some k else None
  | None => None
  end.

(** pydantic 2 accepts only a str for a [str] field; pydantic 1 also turns
    a number (and a bool, an int to Python) into its [str()]. *)
Definition pydantic2 (v : json) : option string := None.

Definition pydantic1 {U : Unicode} (v : json) : option string :=
  match v with
  | JNum _ | JBool _ => Some (Py.str v)
  | _ => None
  end.

(** ** The upstream services and the handler's monad *)

(** An upstream call either raises (left, with [str(e)] of the exception)
    or returns (right). *)
Record World : Type := {
  (** [GEMINI_MODEL.generate_content(prompt).text] *)
  gemini : string -> string + string;
  (** [GoogleSearch(params).get_dict()] *)
  serpapi : list (string * string) -> string + dict;
  (** [build("youtube", "v3", developerKey=key).search().list(q=q,
      part="snippet", type="video", maxResults=5).execute()] *)
  youtube_data : string -> string -> string + dict
}.

Inductive call : Type :=
| GeminiGenerate (prompt : string)
| SerpApiSearch (params : list (string * string))
| YouTubeSearchList (developerKey q : string).

(** A computation reads the world, and yields an outcome and the calls it
    has made, in order. *)
Definition M (A : Type) : Type := World -> outcome A * list call.

Definition ret {A} (a : A) : M A := fun _ => (Return a, []).

Definition raise {A} (e : exc) : M A := fun _ => (Raise e, []).

Definition lift {A} (o : outcome A) : M A := fun _ => (o, []).

Definition bind {A B} (m : M A) (k : A -> M B) : M B :=
  fun w =>
    match m w with
    | (Return a, t) => let (r, t') := k a w in (r, (t ++ t')%list)
    | (Raise e, t) => (Raise e, t)
    end.

Declare Scope handler_scope.
Delimit Scope handler_scope with handler.
Notation "x <- m ;; k" := (bind m (fun x => k))
  (at level 100, m at next level, right associativity) : handler_scope.
Notation "x <~ o ;; k" := (obind o (fun x => k))
  (at level 100, o at next level, right associativity) : handler_scope.
Local Open Scope handler_scope.

(** The three calls, each under its [try]: the exception is handed to the
    [except] clause as a value. *)
Definition try_generate_content (prompt : string) : M (string + string) :=
  fun w => (Return (gemini w prompt), [GeminiGenerate prompt]).

Definition try_get_dict (params : list (string * string)) : M (string + dict) :=
  fun w => (Return (serpapi w params), [SerpApiSearch params]).

Definition try_youtube_search (key q : string) : M (string + dict) :=
  fun w => (Return (youtube_data w key q), [YouTubeSearchList key q]).

(** ** The handler *)

Section Handler.

Context {U : Unicode}.

(** What the installed pydantic makes of a value that is neither a str nor
    None where a str is declared: [pydantic1] or [pydantic2]. *)
Variable coerce_str : json -> option string.

(** A field declared [str]. *)
Definition validate_str (v : json) : outcome string :=
  match v with
  | JStr s => Return s
  | JNull => Raise Uncaught
  | _ => match coerce_str v with
         | Some s => Return s
         | None => Raise Uncaught
         end
  end.

(** A field declared [Optional[str] = None]. *)
Definition validate_optional_str (v : json) : outcome (option string) :=
  match v with
  | JNull => Return None
  | _ => s <~ validate_str v ;; Return (Some s)
  end.

(** [VideoResult(title=.., link=.., description=.., channel=.., views=..)];
    a keyword the caller leaves out is None. *)
Definition VideoResult_init (title link description channel views : json)
  : outcome VideoResult :=
  t <~ validate_str title ;;
  l <~ validate_str link ;;
  d <~ validate_optional_str description ;;
  c <~ validate_optional_str channel ;;
  n <~ validate_optional_str views ;;
  Return {| title := t; link := l; description := d; channel := c; views := n |}.

(** app.py, lines 60-64. *)
Definition prompt (query : string) : string :=
  "You are a helpful assistant. The user asked:" ++ PyStr.newline
  ++ PyStr.dquote ++ query ++ PyStr.dquote ++ PyStr.newline ++ PyStr.newline
  ++ PyStr.em_dash ++ " If you can answer this directly, just give the answer."
  ++ PyStr.newline
  ++ PyStr.em_dash ++ " Otherwise reply exactly GOOGLE or YOUTUBE (no extra text).".

(** [ask_gemini], as called under the [try] of lines 76-79. *)
Definition ask_gemini (query : string) : M (string + string) :=
  resp <- try_generate_content (prompt query) ;;
  ret (match resp with
       | inl e => inl e
       | inr text => inr (PyStr.strip text)
       end).

(** [v.get("channel", {}).get("name") or v.get("channel_name")],
    lines 108 and 151. *)
Definition channel_of (v : json) : outcome json :=
  c <~ Py.get v "channel" (JDict []) ;;
  name <~ Py.get c "name" JNull ;;
  if Py.truthy name then Return name else Py.get v "channel_name" JNull.

(** Lines 104-110: one item of SerpAPI's google_videos engine. *)
Definition google_videos_result (v : json) : outcome VideoResult :=
  t <~ Py.get v "title" (JStr "") ;;
  l <~ Py.get v "link" (JStr "") ;;
  d <~ Py.get v "description" JNull ;;
  c <~ channel_of v ;;
  n <~ Py.get v "views" JNull ;;
  VideoResult_init t l d c n.

(** Lines 148-153: one item of SerpAPI's youtube engine. *)
Definition serpapi_youtube_result (i : json) : outcome VideoResult :=
  t <~ Py.get i "title" (JStr "") ;;
  l <~ Py.get i "link" (JStr "") ;;
  c <~ channel_of i ;;
  n <~ Py.get i "views" JNull ;;
  VideoResult_init t l JNull c n.

(** Lines 159-163: one item of the YouTube Data API. *)
Definition youtube_data_result (i : json) : outcome VideoResult :=
  snippet <~ Py.getitem i "snippet" ;;
  t <~ Py.getitem snippet "title" ;;
  id <~ Py.getitem i "id" ;;
  videoId <~ Py.getitem id "videoId" ;;
  snippet' <~ Py.getitem i "snippet" ;;
  c <~ Py.getitem snippet' "channelTitle" ;;
  VideoResult_init t (JStr ("https://youtu.be/" ++ Py.str videoId)) JNull c JNull.

(** Lines 87-113. *)
Definition google_videos (cfg : Config) (query : string) : M SearchResponse :=
  match configured (SERPAPI_API_KEY cfg) with
  | None => raise (HTTPException 500 "SERPAPI_API_KEY not set")
  | Some api_key =>
      let params :=
        [("engine", "google_videos"); ("q", query); ("api_key", api_key)] in
      data <- try_get_dict params ;;
      match data with
      | inl e => raise (HTTPException 502 ("SerpAPI error: " ++ e))
      | inr data =>
          let vids := Py.dict_get data "video_results" (JList []) in
          results <- lift (vs <~ Py.iter_slice5 vids ;;
                           comprehension google_videos_result vs) ;;
          ret {| source := "google_videos"; answer := None;
                 results := Some results |}
      end
  end.

(** Lines 117-128: the items of the YouTube Data API, or [[]]. *)
Definition youtube_data_items (cfg : Config) (query : string) : M json :=
  match configured (YOUTUBE_API_KEY cfg) with
  | Some key =>
      resp <- try_youtube_search key query ;;
      ret (match resp with
           | inr resp => Py.dict_get resp "items" (JList [])
           | inl _ => JList []
           end)
  | None => ret (JList [])
  end.

(** Lines 132-155: the SerpAPI fallback of the YouTube branch. *)
Definition serpapi_youtube (cfg : Config) (query : string)
  : M (list VideoResult) :=
  match configured (SERPAPI_API_KEY cfg) with
  | None => raise (HTTPException 500 "No YouTube search API key available")
  | Some api_key =>
      let params :=
        [("engine", "youtube"); ("search_query", query); ("api_key", api_key)] in
      data <- try_get_dict params ;;
      match data with
      | inl e => raise (HTTPException 502 ("SerpAPI YouTube error: " ++ e))
      | inr data =>
          let items := Py.dict_get data "video_results" (JList []) in
          lift (vs <~ Py.iter_slice5 items ;;
                comprehension serpapi_youtube_result vs)
      end
  end.

(** Lines 116-167. *)
Definition youtube (cfg : Config) (query : string) : M SearchResponse :=
  items <- youtube_data_items cfg query ;;
  results <- (if negb (Py.truthy items)
              then serpapi_youtube cfg query
              else lift (vs <~ Py.iter items ;;
                         comprehension youtube_data_result vs)) ;;
  ret {| source := "youtube"; answer := None; results := Some results |}.

(** Lines 81-170: what [search] does with Gemini's answer. *)
Definition interpret (cfg : Config) (query gemini_out : string)
  : M SearchResponse :=
  let lower := PyStr.lower gemini_out in
  if PyStr.nonempty gemini_out
     && negb (existsb (String.eqb lower) ["google"; "youtube"])
  then ret {| source := "gemini"; answer := Some gemini_out; results := None |}
  else if String.eqb lower "google" then google_videos cfg query
  else if String.eqb lower "youtube" then youtube cfg query
  else raise (HTTPException 422
                "Unable to determine search method; try rephrasing").

(** [search], lines 69-170. *)
Definition search (cfg : Config) (req : QueryRequest) : M SearchResponse :=
  let query := PyStr.strip (query req) in
  if negb (PyStr.nonempty query)
  then raise (HTTPException 400 "Query must not be empty")
  else
    gemini_out <- ask_gemini query ;;
    match gemini_out with
    | inl e => raise (HTTPException 502 ("Gemini API error: " ++ e))
    | inr gemini_out => interpret cfg query gemini_out
    end.

End Handler.

(** ** The command-line trial (main.py) *)

Module Cli.

(** What the user does at a prompt; the end of the list is the end of the
    standard input (EOFError). *)
Inductive input_event : Type :=
| Line (s : string)
| KeyboardInterrupt.

(** What the program does, in order: [input]'s prompt, a [print] (which
    ends its text with a newline), a call of a service. *)
Inductive event : Type :=
| Prompt (s : string)
| Print (s : string)
| Call (c : call).

(** The environment variables, the packages that can be imported, and the
    exception of [genai.GenerativeModel], if it raises. *)
Record Env : Type := {
  GEMINI_API_KEY : option string;
  keys : Config;
  genai_installed : bool;
  model_error : option string;
  googleapiclient_installed : bool;
  serpapi_installed : bool
}.

Section Trial.

Context {U : Unicode}.

Definition C (A : Type) : Type := World -> outcome A * list event.

Definition ret {A} (a : A) : C A := fun _ => (Return a, []).

Definition lift {A} (o : outcome A) : C A := fun _ => (o, []).

Definition bind {A B} (m : C A) (k : A -> C B) : C B :=
  fun w =>
    match m w with
    | (Return a, t) => let (r, t') := k a w in (r, (t ++ t')%list)
    | (Raise e, t) => (Raise e, t)
    end.

Definition print (s : string) : C unit := fun _ => (Return tt, [Print s]).

Definition show_prompt (s : string) : C unit :=
  fun _ => (Return tt, [Prompt s]).

Definition try_generate_content (prompt : string) : C (string + string) :=
  fun w => (Return (gemini w prompt), [Call (GeminiGenerate prompt)]).

Definition try_get_dict (params : list (string * string)) : C (string + dict) :=
  fun w => (Return (serpapi w params), [Call (SerpApiSearch params)]).

Definition try_youtube_search (key q : string) : C (string + dict) :=
  fun w => (Return (youtube_data w key q), [Call (YouTubeSearchList key q)]).

Declare Scope cli_scope.
Delimit Scope cli_scope with cli.
Notation "x <- m ;; k" := (bind m (fun x => k))
  (at level 100, m at next level, right associativity) : cli_scope.
Notation "m ;;; k" := (bind m (fun _ => k))
  (at level 100, right associativity) : cli_scope.
Local Open Scope cli_scope.

(** [for i, x in enumerate(l, i0)] with a body that prints. *)
Fixpoint for_each {A} (body : nat -> A -> C unit) (i : nat) (l : list A)
  : C unit :=
  match l with
  | [] => ret tt
  | x :: l' => body i x ;;; for_each body (S i) l'
  end.

(** [str(i)] of a loop index. *)
Definition index_str (i : nat) : string :=
  NilZero.string_of_uint (Nat.to_uint i).

(** Lines 107-113. *)
Definition print_google_result (i : nat) (vid : json) : C unit :=
  title <- lift (Py.get vid "title" (JStr PyStr.em_dash)) ;;
  link <- lift (Py.get vid "link" (JStr PyStr.em_dash)) ;;
  desc <- lift (Py.get vid "description" (JStr "")) ;;
  print (index_str i ++ ". " ++ Py.str title ++ PyStr.newline
         ++ "    " ++ Py.str link) ;;;
  if Py.truthy desc then print ("    " ++ Py.str desc) else ret tt.

(** Lines 137-141. *)
Definition print_youtube_item (i : nat) (it : json) : C unit :=
  title <- lift (snippet <~ Py.getitem it "snippet" ;;
                 Py.getitem snippet "title") ;;
  vidid <- lift (id <~ Py.getitem it "id" ;; Py.getitem id "videoId") ;;
  chan <- lift (snippet <~ Py.getitem it "snippet" ;;
                Py.getitem snippet "channelTitle") ;;
  print (index_str i ++ ". " ++ Py.str title ++ " (Channel: " ++ Py.str chan
         ++ ") " ++ PyStr.em_dash ++ " https://youtu.be/" ++ Py.str vidid).

(** Lines 172-180. *)
Definition print_serpapi_video (i : nat) (vid : json) : C unit :=
  title <- lift (Py.get vid "title" (JStr PyStr.em_dash)) ;;
  link <- lift (Py.get vid "link" (JStr PyStr.em_dash)) ;;
  ch <- lift (c <~ Py.get vid "channel" (JDict []) ;;
              name <~ Py.get c "name" JNull ;;
              if Py.truthy name then Return name
              else Py.get vid "channel_name" (JStr PyStr.em_dash)) ;;
  views <- lift (Py.get vid "views" (JStr "")) ;;
  let line := index_str i ++ ". " ++ Py.str title ++ " " ++ PyStr.em_dash
              ++ " " ++ Py.str link ++ " (Channel: " ++ Py.str ch ++ ")" in
  print (if Py.truthy views then line ++ " [" ++ Py.str views ++ "]"
         else line).

(** Lines 82-114: Gemini routed to Google Videos. *)
Definition google_branch (env : Env) (query : string) : C unit :=
  match configured (SERPAPI_API_KEY (keys env)) with
  | None =>
      print "Error: SERPAPI_API_KEY not set. Cannot perform Google video search."
  | Some api_key =>
      if negb (serpapi_installed env)
      then print "Error: install SerpAPI client: pip install google-search-results"
      else
        print (PyStr.newline ++ "🔎 Performing Google Videos search...") ;;;
        results <- try_get_dict
                     [("engine", "google_videos"); ("q", query);
                      ("api_key", api_key)] ;;
        match results with
        | inl e => print ("Error: Google video search failed: " ++ e)
        | inr data =>
            let results := Py.dict_get data "video_results" (JList []) in
            if negb (Py.truthy results)
            then print "No video results found on Google."
            else vs <- lift (Py.iter_slice5 results) ;;
                 for_each print_google_result 1 vs
        end
  end.

(** Lines 125-133: the items of the YouTube Data API, or [[]] after an
    error line. *)
Definition youtube_data_items (key query : string) : C json :=
  resp <- try_youtube_search key query ;;
  match resp with
  | inr resp => ret (Py.dict_get resp "items" (JList []))
  | inl e => print ("Error: YouTube Data API failed: " ++ e) ;;; ret (JList [])
  end.

(** Lines 135-144: the items shown, if there are any; [true] stands for
    the [continue] of line 142. *)
Definition show_youtube_items (items : json) : C bool :=
  if Py.truthy items
  then print (PyStr.newline ++ "▶️ YouTube Data API results:") ;;;
       its <- lift (Py.iter items) ;;
       for_each print_youtube_item 1 its ;;;
       ret true
  else print "YouTube Data API returned no results; falling back to SerpAPI." ;;;
       ret false.

(** Lines 119-144: the YouTube Data API, tried if its key is set. *)
Definition youtube_data_attempt (env : Env) (query : string) : C bool :=
  match configured (YOUTUBE_API_KEY (keys env)) with
  | None => ret false
  | Some key =>
      if negb (googleapiclient_installed env)
      then print "Error: install YouTube client: pip install google-api-python-client" ;;;
           ret false
      else items <- youtube_data_items key query ;;
           show_youtube_items items
  end.

(** Lines 146-181: the YouTube search through SerpAPI. *)
Definition serpapi_youtube (env : Env) (query : string) : C unit :=
  match configured (SERPAPI_API_KEY (keys env)) with
  | None =>
      print "Error: No API available for YouTube search (need YOUTUBE_API_KEY or SERPAPI_API_KEY)."
  | Some api_key =>
      if negb (serpapi_installed env)
      then print "Error: install SerpAPI client: pip install google-search-results"
      else
        print (PyStr.newline ++ "🔎 Performing YouTube search via SerpAPI...") ;;;
        vids <- try_get_dict
                  [("engine", "youtube"); ("search_query", query);
                   ("api_key", api_key)] ;;
        match vids with
        | inl e => print ("Error: SerpAPI YouTube search failed: " ++ e)
        | inr data =>
            let vids := Py.dict_get data "video_results" (JList []) in
            if negb (Py.truthy vids)
            then print "No YouTube results found via SerpAPI."
            else print (PyStr.newline ++ "▶️ YouTube SerpAPI results:") ;;;
                 vs <- lift (Py.iter_slice5 vids) ;;
                 for_each print_serpapi_video 1 vs
        end
  end.

(** Lines 117-181: Gemini routed to YouTube. *)
Definition youtube_branch (env : Env) (query : string) : C unit :=
  shown <- youtube_data_attempt env query ;;
  if shown then ret tt else serpapi_youtube env query.

(** Lines 50-61: Gemini's stripped answer, or the empty string after an
    error line. The prompt is the one of app.py, word for word. *)
Definition ask (query : string) : C string :=
  resp <- try_generate_content (prompt query) ;;
  match resp with
  | inr text => ret (PyStr.strip text)
  | inl e => print ("Error: Gemini API call failed: " ++ e) ;;; ret ""
  end.

(** Lines 64-73: the decision and the answer read from Gemini's output. *)
Definition interpret (gemini_output : string) : option string * option string :=
  let lower := PyStr.lower gemini_output in
  if String.eqb lower "google" then (Some "GOOGLE", None)
  else if String.eqb lower "youtube" then (Some "YOUTUBE", None)
  else if PyStr.nonempty gemini_output then (None, Some gemini_output)
  else (None, None).

(** Lines 75-184: what follows the interpretation. *)
Definition act (env : Env) (query : string)
           (decision answer : option string) : C unit :=
  let routed :=
    if match decision with Some d => String.eqb d "GOOGLE" | None => false end
    then google_branch env query
    else if match decision with
            | Some d => String.eqb d "YOUTUBE"
            | None => false
            end
    then youtube_branch env query
    else print "⚠️ Unable to answer or determine search method. Please try rephrasing." in
  match answer with
  | Some a =>
      if PyStr.nonempty a
      then print (PyStr.newline ++ "💡 Gemini Answer:" ++ PyStr.newline) ;;;
           print a
      else routed
  | None => routed
  end.

(** Lines 50-184: one turn of the loop, for a query that is no word of
    leave. *)
Definition turn (env : Env) (query : string) : C unit :=
  gemini_output <- ask query ;;
  let (decision, answer) := interpret gemini_output in
  act env query decision answer.

(** Lines 39-184: the loop. *)
Fixpoint loop (env : Env) (inputs : list input_event) : C unit :=
  show_prompt (PyStr.newline ++ "Enter your search query (or 'exit' to quit): ") ;;;
  match inputs with
  | [] => print (PyStr.newline ++ "Goodbye!")
  | KeyboardInterrupt :: _ => print (PyStr.newline ++ "Goodbye!")
  | Line l :: rest =>
      let query := PyStr.strip l in
      if negb (PyStr.nonempty query)
         || existsb (String.eqb (PyStr.lower query)) ["exit"; "quit"]
      then print "Goodbye!"
      else turn env query ;;; loop env rest
  end.

(** [main], lines 8-184. *)
Definition main (env : Env) (inputs : list input_event) : C unit :=
  match configured (GEMINI_API_KEY env) with
  | None => print "Error: GEMINI_API_KEY environment variable is not set."
  | Some _ =>
      if negb (genai_installed env)
      then print "Error: google-generativeai is not installed. Please run:" ;;;
           print "  pip install google-generativeai"
      else
        match model_error env with
        | Some e =>
            print ("Error: could not load Gemini model 'gemini-2.0-flash': " ++ e)
        | None => loop env inputs
        end
  end.

(** The calls among the events, and the texts printed. *)
Fixpoint calls (t : list event) : list call :=
  match t with
  | [] => []
  | Call c :: t' => c :: calls t'
  | _ :: t' => calls t'
  end.

Fixpoint printed (t : list event) : list string :=
  match t with
  | [] => []
  | Print s :: t' => s :: printed t'
  | _ :: t' => printed t'
  end.

Fixpoint prompts (t : list event) : nat :=
  match t with
  | [] => 0
  | Prompt _ :: t' => S (prompts t')
  | _ :: t' => prompts t'
  end.

(** A computation that calls no service. *)
Definition quiet {A} (m : C A) : Prop := forall w, calls (snd (m w)) = [].

(** A computation that shows no prompt. *)
Definition unprompted {A} (m : C A) : Prop :=
  forall w, prompts (snd (m w)) = 0.

(** The words of leave of line 46: a line that strips to nothing, or to
    "exit" or "quit" in any case. *)
Definition leaves (l : string) : bool :=
  negb (PyStr.nonempty (PyStr.strip l))
  || existsb (String.eqb (PyStr.lower (PyStr.strip l))) ["exit"; "quit"].

Definition enter_prompt : string :=
  PyStr.newline ++ "Enter your search query (or 'exit' to quit): ".

End Trial.

End Cli.

(** ** Vocabulary of the properties *)

Definition google_videos_response (rs : list VideoResult) : SearchResponse :=
  {| source := "google_videos"; answer := None; results := Some rs |}.

Definition youtube_response (rs : list VideoResult) : SearchResponse :=
  {| source := "youtube"; answer := None; results := Some rs |}.

Definition map_outcome {A B} (f : A -> B) (o : outcome A) : outcome B :=
  match o with
  | Return a => Return (f a)
  | Raise e => Raise e
  end.

(** The parameters of the two SerpAPI searches. *)
Definition google_videos_params (q api_key : string) : list (string * string) :=
  [("engine", "google_videos"); ("q", q); ("api_key", api_key)].

Definition youtube_params (q api_key : string) : list (string * string) :=
  [("engine", "youtube"); ("search_query", q); ("api_key", api_key)].

(** The trace of the YouTube Data API attempt: one call if the key is set. *)
Definition youtube_attempt (cfg : Config) (q : string) : list call :=
  match configured (YOUTUBE_API_KEY cfg) with
  | Some key => [YouTubeSearchList key q]
  | None => []
  end.

(** The YouTube Data API yields nothing to show: no key, an exception, or
    a response whose items are empty. *)
Definition primary_unavailable (cfg : Config) (w : World) (q : string) : Prop :=
  match configured (YOUTUBE_API_KEY cfg) with
  | None => True
  | Some key =>
      match youtube_data w key q with
      | inl _ => True
      | inr resp => Py.truthy (Py.dict_get resp "items" (JList [])) = false
      end
  end.

(** ** Sample configurations, items and worlds *)

(** A database for the samples. It takes the C1 controls, U+00A0, U+00AD
    and the white space beyond ASCII for not printable, as Python does, and
    every other character for printable. *)
Definition sample_unicode : Unicode :=
  {| isprintable := fun cp =>
       negb (((128 <=? cp) && (cp <=? 160)) || (cp =? 173) || (cp =? 5760)
             || ((8192 <=? cp) && (cp <=? 8202)) || (cp =? 8232)
             || (cp =? 8233) || (cp =? 8239) || (cp =? 8287)
             || (cp =? 12288))%N |}.

(** Every call of a service gets the same reply. *)
Definition constant_world (g : string + string) (s y : string + dict) : World :=
  {| gemini := fun _ => g; serpapi := fun _ => s; youtube_data := fun _ _ => y |}.

Definition both_keys : Config :=
  {| YOUTUBE_API_KEY := Some "yt-key"; SERPAPI_API_KEY := Some "serp-key" |}.

Definition serpapi_only : Config :=
  {| YOUTUBE_API_KEY := None; SERPAPI_API_KEY := Some "serp-key" |}.

Definition youtube_only : Config :=
  {| YOUTUBE_API_KEY := Some "yt-key"; SERPAPI_API_KEY := None |}.

(** SERPAPI_KEY set to the empty string counts as not set. *)
Definition empty_serpapi_key : Config :=
  {| YOUTUBE_API_KEY := None; SERPAPI_API_KEY := Some "" |}.

(** An item as the YouTube Data API returns it. *)
Definition youtube_item (t vid ch : string) : json :=
  JDict [("snippet", JDict [("title", JStr t); ("channelTitle", JStr ch)]);
         ("id", JDict [("videoId", JStr vid)])].

(** An item as SerpAPI returns it, with a nested channel. *)
Definition serpapi_item (t l ch : string) : json :=
  JDict [("title", JStr t); ("link", JStr l);
         ("channel", JDict [("name", JStr ch)])].

(** The record of [serpapi_item t l ch]. *)
Definition serpapi_record (t l ch : string) : VideoResult :=
  {| title := t; link := l; description := None; channel := Some ch;
     views := None |}.

Definition six_youtube_items : list json :=
  [youtube_item "1" "a" "C"; youtube_item "2" "b" "C"; youtube_item "3" "c" "C";
   youtube_item "4" "d" "C"; youtube_item "5" "e" "C"; youtube_item "6" "f" "C"].

Definition six_serpapi_items : list json :=
  [serpapi_item "1" "a" "C"; serpapi_item "2" "b" "C"; serpapi_item "3" "c" "C";
   serpapi_item "4" "d" "C"; serpapi_item "5" "e" "C"; serpapi_item "6" "f" "C"].

Definition cats : QueryRequest := {| query := " cats " |}.

(** A query of white space beyond ASCII: U+3000, a space, U+00A0. *)
Definition unicode_blank : QueryRequest :=
  {| query := PyStr.ideographic_space ++ " " ++ PyStr.nbsp |}.

(** Gemini answers in prose that names both tokens. *)
Definition prose_world : World :=
  constant_world (inr " Try google or youtube. ") (inl "unused") (inl "unused").

(** Gemini answers with white space only. *)
Definition blank_world : World :=
  constant_world (inr "  ") (inl "unused") (inl "unused").

(** Gemini routes to Google Videos; SerpAPI has no "video_results". *)
Definition no_match_world : World :=
  constant_world (inr "GOOGLE") (inr [("search_metadata", JDict [])])
    (inl "unused").

(** Gemini answers GOOGLE followed by U+00A0; SerpAPI has six results. *)
Definition nbsp_token_world : World :=
  constant_world (inr ("GOOGLE" ++ PyStr.nbsp))
    (inr [("video_results", JList six_serpapi_items)]) (inl "unused").

(** Gemini routes to Google Videos; SerpAPI has six results. *)
Definition google_six_world : World :=
  constant_world (inr "Google") (inr [("video_results", JList six_serpapi_items)])
    (inl "unused").

(** Gemini routes to YouTube; the YouTube Data API raises; SerpAPI has six
    results. *)
Definition quota_world : World :=
  constant_world (inr "YouTube")
    (inr [("video_results", JList six_serpapi_items)]) (inl "quotaExceeded").

(** Gemini routes to YouTube; the YouTube Data API has six items. *)
Definition youtube_six_world : World :=
  constant_world (inr "youtube") (inl "unused")
    (inr [("items", JList six_youtube_items)]).



Definition channel_as_text : dict :=
  [("title", JStr "t"); ("channel", JStr "flat")].




(** Gemini's call raises. *)
Definition gemini_down_world : World :=
  constant_world (inl "503 unavailable") (inl "unused") (inl "unused").

(** Gemini routes to Google Videos; SerpAPI raises. *)
Definition serpapi_down_world : World :=
  constant_world (inr "google") (inl "timed out") (inl "unused").

(** Gemini routes to YouTube; both video services raise. *)
Definition all_down_world : World :=
  constant_world (inr "youtube") (inl "timed out") (inl "quotaExceeded").

(** As [google_six_world], with other entries after the fifth. *)
Definition google_tail_world : World :=
  constant_world (inr "Google")
    (inr [("video_results",
           JList (firstn 5 six_serpapi_items ++ [JNull; JStr "x"])%list)])
    (inl "unused").

(** As [quota_world], with Gemini's token in another case and padded. *)
Definition padded_token_world : World :=
  constant_world (inr "  youtube  ")
    (inr [("video_results", JList six_serpapi_items)]) (inl "quotaExceeded").

(** Gemini routes to YouTube; the YouTube Data API has two items. *)
Definition youtube_two_world : World :=
  constant_world (inr "youtube") (inl "unused")
    (inr [("items", JList [youtube_item "1" "a" "C"; youtube_item "2" "b" "C"])]).

(** The record of [youtube_item t vid ch]. *)
Definition youtube_record (t vid ch : string) : VideoResult :=
  {| title := t; link := "https://youtu.be/" ++ vid; description := None;
     channel := Some ch; views := None |}.

(** Gemini routes to YouTube; the second item of the YouTube Data API has
    no "id". *)
Definition youtube_bad_item_world : World :=
  constant_world (inr "youtube") (inl "unused")
    (inr [("items",
           JList [youtube_item "1" "a" "C";
                  JDict [("snippet", JDict [("title", JStr "2");
                                            ("channelTitle", JStr "C")])]])]).

(** A SerpAPI item with nothing but a flat channel name. *)
Definition bare_item : dict := [("channel_name", JStr "flat")].

(** A SerpAPI item whose title is a number. *)
Definition numeric_title : dict := [("title", JNum 1); ("link", JStr "l")].


(** An environment in which [main] reaches its loop. *)
Definition cli_ready : Cli.Env :=
  {| Cli.GEMINI_API_KEY := Some "gemini-key"; Cli.keys := both_keys;
     Cli.genai_installed := true; Cli.model_error := None;
     Cli.googleapiclient_installed := true; Cli.serpapi_installed := true |}.

(** ** The paths through the handler *)

(** The records of the first five entries of a SerpAPI "video_results". *)
Definition sliced_results {A} (f : json -> outcome A) (vids : json)
  : outcome (list A) :=
  vs <~ Py.iter_slice5 vids ;; comprehension f vs.

(** The records of all the items of the YouTube Data API. *)
Definition all_results {A} (f : json -> outcome A) (items : json)
  : outcome (list A) :=
  vs <~ Py.iter items ;; comprehension f vs.

Definition gemini_response (a : string) : SearchResponse :=
  {| source := "gemini"; answer := Some a; results := None |}.

(** What [search] does after Gemini's call, for a valid query [q]: the
    outcome and the calls that follow, one constructor for each way through
    lines 76-170. *)
Inductive answered_path {U : Unicode} (coerce_str : json -> option string)
          (cfg : Config) (q : string) (w : World)
  : outcome SearchResponse -> list call -> Prop :=
| path_gemini_error e :
    gemini w (prompt q) = inl e ->
    answered_path coerce_str cfg q w
      (Raise (HTTPException 502 ("Gemini API error: " ++ e))) []
| path_direct_answer text :
    gemini w (prompt q) = inr text ->
    PyStr.strip text <> "" ->
    PyStr.lower (PyStr.strip text) <> "google" ->
    PyStr.lower (PyStr.strip text) <> "youtube" ->
    answered_path coerce_str cfg q w
      (Return (gemini_response (PyStr.strip text))) []
| path_blank_answer text :
    gemini w (prompt q) = inr text ->
    PyStr.strip text = "" ->
    answered_path coerce_str cfg q w
      (Raise (HTTPException 422
                "Unable to determine search method; try rephrasing")) []
| path_google_no_key text :
    gemini w (prompt q) = inr text ->
    PyStr.lower (PyStr.strip text) = "google" ->
    configured (SERPAPI_API_KEY cfg) = None ->
    answered_path coerce_str cfg q w
      (Raise (HTTPException 500 "SERPAPI_API_KEY not set")) []
| path_google_error text k e :
    gemini w (prompt q) = inr text ->
    PyStr.lower (PyStr.strip text) = "google" ->
    configured (SERPAPI_API_KEY cfg) = Some k ->
    serpapi w (google_videos_params q k) = inl e ->
    answered_path coerce_str cfg q w
      (Raise (HTTPException 502 ("SerpAPI error: " ++ e)))
      [SerpApiSearch (google_videos_params q k)]
| path_google_results text k data :
    gemini w (prompt q) = inr text ->
    PyStr.lower (PyStr.strip text) = "google" ->
    configured (SERPAPI_API_KEY cfg) = Some k ->
    serpapi w (google_videos_params q k) = inr data ->
    answered_path coerce_str cfg q w
      (map_outcome google_videos_response
         (sliced_results (google_videos_result coerce_str)
            (Py.dict_get data "video_results" (JList []))))
      [SerpApiSearch (google_videos_params q k)]
| path_youtube_no_key text :
    gemini w (prompt q) = inr text ->
    PyStr.lower (PyStr.strip text) = "youtube" ->
    primary_unavailable cfg w q ->
    configured (SERPAPI_API_KEY cfg) = None ->
    answered_path coerce_str cfg q w
      (Raise (HTTPException 500 "No YouTube search API key available"))
      (youtube_attempt cfg q)
| path_fallback_error text k e :
    gemini w (prompt q) = inr text ->
    PyStr.lower (PyStr.strip text) = "youtube" ->
    primary_unavailable cfg w q ->
    configured (SERPAPI_API_KEY cfg) = Some k ->
    serpapi w (youtube_params q k) = inl e ->
    answered_path coerce_str cfg q w
      (Raise (HTTPException 502 ("SerpAPI YouTube error: " ++ e)))
      (youtube_attempt cfg q ++ [SerpApiSearch (youtube_params q k)])%list
| path_fallback_results text k data :
    gemini w (prompt q) = inr text ->
    PyStr.lower (PyStr.strip text) = "youtube" ->
    primary_unavailable cfg w q ->
    configured (SERPAPI_API_KEY cfg) = Some k ->
    serpapi w (youtube_params q k) = inr data ->
    answered_path coerce_str cfg q w
      (map_outcome youtube_response
         (sliced_results (serpapi_youtube_result coerce_str)
            (Py.dict_get data "video_results" (JList []))))
      (youtube_attempt cfg q ++ [SerpApiSearch (youtube_params q k)])%list
| path_youtube_data text key resp :
    gemini w (prompt q) = inr text ->
    PyStr.lower (PyStr.strip text) = "youtube" ->
    configured (YOUTUBE_API_KEY cfg) = Some key ->
    youtube_data w key q = inr resp ->
    Py.truthy (Py.dict_get resp "items" (JList [])) = true ->
    answered_path coerce_str cfg q w
      (map_outcome youtube_response
         (all_results (youtube_data_result coerce_str)
            (Py.dict_get resp "items" (JList []))))
      [YouTubeSearchList key q].

(** The YouTube Data API keeps to [maxResults=5]: whatever it returns for
    the query holds a list of at most five items. *)
Definition honours_max_results (w : World) (q : string) : Prop :=
  forall key resp,
    youtube_data w key q = inr resp ->
    exists items,
      Py.dict_get resp "items" (JList []) = JList items /\ length items <= 5.


(** ** Properties of the handler *)

Lemma nonempty_true (s : string) : PyStr.nonempty s = true <-> s <> "".
Proof. destruct s; simpl; split; congruence. Qed.

Lemma nonempty_false (s : string) : PyStr.nonempty s = false <-> s = "".
Proof. destruct s; simpl; split; congruence. Qed.

Lemma bind_run {A B} (m : M A) (k : A -> M B) (w : World) :
  bind m k w =
  match m w with
  | (Return a, t) => (fst (k a w), (t ++ snd (k a w))%list)
  | (Raise e, t) => (Raise e, t)
  end.
Proof.
  unfold bind. destruct (m w) as [[a|e] t]; [destruct (k a w)|]; reflexivity.
Qed.

Lemma bind_lift {A B} (o : outcome A) (f : A -> B) (w : World) :
  bind (lift o) (fun a => ret (f a)) w = (map_outcome f o, []).
Proof. destruct o; reflexivity. Qed.

(** *** List comprehensions *)

Lemma comprehension_Forall2 {A B} (f : A -> outcome B) (l : list A) (rs : list B) :
  comprehension f l = Return rs <-> Forall2 (fun x y => f x = Return y) l rs.
Proof.
  revert rs. induction l as [|x l IH]; intros rs; simpl.
  - split; intros H.
    + injection H as <-. constructor.
    + inversion H. reflexivity.
  - split; intros H.
    + destruct (f x) as [y|e] eqn:Ex; simpl in H; [|discriminate].
      destruct (comprehension f l) as [ys|e] eqn:El; simpl in H; [|discriminate].
      injection H as <-. constructor; [assumption|]. apply IH. reflexivity.
    + inversion H as [|x' y l' ys Hxy Hl]; subst.
      rewrite Hxy. simpl. apply IH in Hl. rewrite Hl. reflexivity.
Qed.

Lemma comprehension_length {A B} (f : A -> outcome B) (l : list A) (rs : list B) :
  comprehension f l = Return rs -> length rs = length l.
Proof.
  intros H. apply comprehension_Forall2 in H.
  induction H; simpl; congruence.
Qed.

Lemma comprehension_total {A B} (f : A -> outcome B) (l : list A) :
  Forall (fun x => exists y, f x = Return y) l ->
  exists rs, comprehension f l = Return rs.
Proof.
  induction 1 as [|x l [y Hy] _ [rs Hrs]]; simpl.
  - exists []. reflexivity.
  - exists (y :: rs). rewrite Hy. simpl. rewrite Hrs. reflexivity.
Qed.

(** *** White space *)

Lemma string_strong_ind (P : string -> Prop) :
  (forall s, (forall s', String.length s' < String.length s -> P s') -> P s) ->
  forall s, P s.
Proof.
  intros H s.
  assert (G : forall n s, String.length s <= n -> P s).
  { induction n as [|n IH]; intros s' Hs'; apply H; intros s'' Hlt.
    - lia.
    - apply IH. lia. }
  apply (G (String.length s)). lia.
Qed.

Lemma lstrip_eq (s : string) :
  PyStr.lstrip s =
  match s with
  | EmptyString => EmptyString
  | String a s1 =>
      if PyStr.is_space a then PyStr.lstrip s1
      else
        match s1 with
        | EmptyString => s
        | String b s2 =>
            if PyStr.is_space2 a b then PyStr.lstrip s2
            else
              match s2 with
              | EmptyString => s
              | String c s3 =>
                  if PyStr.is_space3 a b c then PyStr.lstrip s3 else s
              end
        end
  end.
Proof. destruct s; reflexivity. Qed.

(** The cases of [lstrip] on [s]: in each, [lstrip s] is [s] itself or
    [lstrip] of a shorter string. *)
Ltac lstrip_cases s :=
  let a := fresh "a" in
  let b := fresh "b" in
  let c := fresh "c" in
  let s3 := fresh "s" in
  let E1 := fresh "E1" in
  let E2 := fresh "E2" in
  let E3 := fresh "E3" in
  rewrite (lstrip_eq s);
  destruct s as [|a [|b [|c s3]]]; cbv beta iota;
  try destruct (PyStr.is_space a) eqn:E1;
  try destruct (PyStr.is_space2 a b) eqn:E2;
  try destruct (PyStr.is_space3 a b c) eqn:E3.

Lemma lstrip_length (s : string) :
  String.length (PyStr.lstrip s) <= String.length s.
Proof.
  revert s. apply string_strong_ind. intros s IH.
  lstrip_cases s; cbn [String.length]; try lia;
    match goal with
    | |- String.length (PyStr.lstrip ?t) <= _ =>
        assert (String.length (PyStr.lstrip t) <= String.length t)
          by (apply IH; cbn [String.length]; lia);
        cbn [String.length] in *; lia
    end.
Qed.

Lemma lstrip_idempotent (s : string) :
  PyStr.lstrip (PyStr.lstrip s) = PyStr.lstrip s.
Proof.
  revert s. apply string_strong_ind. intros s IH.
  rewrite (lstrip_eq s).
  destruct s as [|a [|b [|c s3]]]; cbv beta iota;
    try destruct (PyStr.is_space a) eqn:E1;
    try destruct (PyStr.is_space2 a b) eqn:E2;
    try destruct (PyStr.is_space3 a b c) eqn:E3;
    try (apply IH; cbn [String.length]; lia);
    cbn [PyStr.lstrip]; rewrite ?E1, ?E2, ?E3; reflexivity.
Qed.

(** White space before a text falls with the white space of the text. *)
Lemma lstrip_app (a b : string) :
  PyStr.lstrip a = "" -> PyStr.lstrip (a ++ b) = PyStr.lstrip b.
Proof.
  revert a. apply (string_strong_ind
                     (fun a => PyStr.lstrip a = "" ->
                               PyStr.lstrip (a ++ b) = PyStr.lstrip b)).
  intros a IH. rewrite (lstrip_eq a), (lstrip_eq (a ++ b)).
  destruct a as [|x [|y [|z a3]]]; cbn [String.append]; cbv beta iota;
    try destruct (PyStr.is_space x) eqn:E1;
    try destruct (PyStr.is_space2 x y) eqn:E2;
    try destruct (PyStr.is_space3 x y z) eqn:E3;
    intros H; try discriminate;
    try (symmetry; apply lstrip_eq);
    try (apply (IH a3); [cbn [String.length]; lia|assumption]);
    try (apply (IH (String z a3)); [cbn [String.length]; lia|assumption]);
    try (apply (IH (String y (String z a3)));
         [cbn [String.length]; lia|assumption]);
    try (apply (IH (String y "")); [cbn [String.length]; lia|assumption]).
  all: try (rewrite (lstrip_eq b); destruct b; reflexivity).
  all: try (change (PyStr.lstrip ("" ++ b) = PyStr.lstrip b); reflexivity).
Qed.

(** What [rstrip] removes is white space. *)
Lemma rstrip_split (s : string) :
  exists t, s = PyStr.rstrip s ++ t /\ PyStr.lstrip t = "".
Proof.
  induction s as [|a s [t [Hs Ht]]].
  - exists "". split; reflexivity.
  - cbn [PyStr.rstrip].
    destruct (PyStr.nonempty (PyStr.lstrip (String a s))) eqn:E.
    + exists t. split; [|assumption]. cbn [String.append]. congruence.
    + exists (String a s). split; [reflexivity|].
      apply nonempty_false. assumption.
Qed.

Lemma rstrip_idempotent (s : string) :
  PyStr.rstrip (PyStr.rstrip s) = PyStr.rstrip s.
Proof.
  induction s as [|a s IH]; [reflexivity|].
  cbn [PyStr.rstrip].
  destruct (PyStr.nonempty (PyStr.lstrip (String a s))) eqn:E; [|reflexivity].
  cbn [PyStr.rstrip]. rewrite IH.
  destruct (PyStr.nonempty (PyStr.lstrip (String a (PyStr.rstrip s)))) eqn:E';
    [reflexivity|].
  apply nonempty_false in E'.
  destruct (rstrip_split s) as [t [Hs Ht]].
  pose proof (lstrip_app (String a (PyStr.rstrip s)) t E') as H.
  cbn [String.append] in H. rewrite <- Hs, Ht in H.
  rewrite H in E. discriminate.
Qed.

(** A text that does not begin with white space keeps that when it is cut
    short. *)
Lemma lstrip_fixed_prefix (u t : string) :
  PyStr.lstrip (u ++ t) = u ++ t -> PyStr.lstrip u = u.
Proof.
  intros H. pose proof (lstrip_length) as Hlen.
  rewrite (lstrip_eq (u ++ t)) in H. rewrite (lstrip_eq u).
  destruct u as [|x [|y [|z u3]]]; cbn [String.append] in *; cbv beta iota in *;
    try reflexivity;
    try destruct (PyStr.is_space x) eqn:E1;
    try destruct (PyStr.is_space2 x y) eqn:E2;
    try destruct (PyStr.is_space3 x y z) eqn:E3;
    try reflexivity;
    exfalso;
    match type of H with
    | PyStr.lstrip ?r = _ =>
        specialize (Hlen r); rewrite H in Hlen; cbn [String.length] in Hlen; lia
    | _ => idtac
    end.
Qed.

Lemma strip_idempotent (s : string) :
  PyStr.strip (PyStr.strip s) = PyStr.strip s.
Proof.
  unfold PyStr.strip.
  destruct (rstrip_split (PyStr.lstrip s)) as [t [Hs Ht]].
  assert (Hl : PyStr.lstrip (PyStr.rstrip (PyStr.lstrip s))
               = PyStr.rstrip (PyStr.lstrip s)).
  { apply (lstrip_fixed_prefix _ t). rewrite <- Hs. apply lstrip_idempotent. }
  rewrite Hl. apply rstrip_idempotent.
Qed.

(** A string strips to the empty string exactly when it holds nothing but
    white space, that is when [lstrip] leaves nothing of it. *)
Lemma strip_empty (s : string) :
  PyStr.strip s = "" <-> PyStr.lstrip s = "".
Proof.
  unfold PyStr.strip. split.
  - intros H. destruct (PyStr.lstrip s) as [|a r] eqn:E; [reflexivity|].
    cbn [PyStr.rstrip] in H. rewrite <- E, lstrip_idempotent, E in H.
    discriminate.
  - intros ->. reflexivity.
Qed.

Section Properties.

Context {U : Unicode}.

Variable coerce_str : json -> option string.

Lemma search_answered cfg req w text :
  PyStr.strip (query req) <> "" ->
  gemini w (prompt (PyStr.strip (query req))) = inr text ->
  search coerce_str cfg req w =
  (fst (interpret coerce_str cfg (PyStr.strip (query req)) (PyStr.strip text) w),
   GeminiGenerate (prompt (PyStr.strip (query req)))
     :: snd (interpret coerce_str cfg (PyStr.strip (query req))
               (PyStr.strip text) w)).
Proof.
  intros Hq Hg. apply nonempty_true in Hq.
  unfold search. rewrite Hq. simpl. rewrite bind_run.
  unfold ask_gemini. rewrite bind_run. unfold try_generate_content, ret.
  rewrite Hg. reflexivity.
Qed.

(** *** Runs of the branches *)

Lemma google_videos_run cfg q w k data :
  configured (SERPAPI_API_KEY cfg) = Some k ->
  serpapi w (google_videos_params q k) = inr data ->
  google_videos coerce_str cfg q w =
  (map_outcome google_videos_response
     (vs <~ Py.iter_slice5 (Py.dict_get data "video_results" (JList [])) ;;
      comprehension (google_videos_result coerce_str) vs),
   [SerpApiSearch (google_videos_params q k)]).
Proof.
  intros Hk Hd. unfold google_videos. rewrite Hk. rewrite bind_run.
  unfold try_get_dict. fold (google_videos_params q k). rewrite Hd.
  cbv beta iota. rewrite bind_lift. reflexivity.
Qed.

Lemma serpapi_youtube_run cfg q w k data :
  configured (SERPAPI_API_KEY cfg) = Some k ->
  serpapi w (youtube_params q k) = inr data ->
  serpapi_youtube coerce_str cfg q w =
  (vs <~ Py.iter_slice5 (Py.dict_get data "video_results" (JList [])) ;;
   comprehension (serpapi_youtube_result coerce_str) vs,
   [SerpApiSearch (youtube_params q k)]).
Proof.
  intros Hk Hd. unfold serpapi_youtube. rewrite Hk. rewrite bind_run.
  unfold try_get_dict. fold (youtube_params q k). rewrite Hd.
  reflexivity.
Qed.

Lemma youtube_data_items_run cfg q w :
  exists items,
    youtube_data_items cfg q w = (Return items, youtube_attempt cfg q)
    /\ (primary_unavailable cfg w q <-> Py.truthy items = false)
    /\ forall key resp,
         configured (YOUTUBE_API_KEY cfg) = Some key ->
         youtube_data w key q = inr resp ->
         items = Py.dict_get resp "items" (JList []).
Proof.
  unfold youtube_data_items, youtube_attempt, primary_unavailable.
  destruct (configured (YOUTUBE_API_KEY cfg)) as [key|].
  - rewrite bind_run. unfold try_youtube_search, ret. simpl.
    destruct (youtube_data w key q) as [e|resp] eqn:E.
    + exists (JList []). repeat split; auto.
      intros key' resp' Hk Hr. injection Hk as <-. congruence.
    + exists (Py.dict_get resp "items" (JList [])). repeat split; auto.
      intros key' resp' Hk Hr. injection Hk as <-. congruence.
  - exists (JList []). repeat split; auto. intros; discriminate.
Qed.

Lemma youtube_run cfg q w items t :
  youtube_data_items cfg q w = (Return items, t) ->
  youtube coerce_str cfg q w =
  if negb (Py.truthy items)
  then (map_outcome youtube_response (fst (serpapi_youtube coerce_str cfg q w)),
        (t ++ snd (serpapi_youtube coerce_str cfg q w))%list)
  else (map_outcome youtube_response
          (vs <~ Py.iter items ;;
           comprehension (youtube_data_result coerce_str) vs),
        t).
Proof.
  intros Hi. unfold youtube. rewrite bind_run, Hi.
  destruct (negb (Py.truthy items)); rewrite bind_run.
  - destruct (serpapi_youtube coerce_str cfg q w) as [[rs|e] t']; simpl;
      rewrite ?app_nil_r; reflexivity.
  - unfold lift, ret. simpl.
    destruct (obind _ _); simpl; rewrite ?app_nil_r; reflexivity.
Qed.

(** *** The query and the answer of Gemini *)

(** C3. A query that is empty once stripped (empty, or whitespace only) is
    answered with status 400, "Query must not be empty", and the trace of
    calls is empty: neither Gemini nor a video provider is called. *)
Theorem empty_query_rejected cfg req w :
  PyStr.strip (query req) = "" ->
  search coerce_str cfg req w
  = (Raise (HTTPException 400 "Query must not be empty"), []).
Proof.
  intros Hq. unfold search. rewrite Hq. reflexivity.
Qed.

(** C1. For a valid query, when the stripped answer of Gemini is not empty
    and its lower-cased form is neither "google" nor "youtube", [search]
    returns the stripped answer itself under the source "gemini", with no
    result list, and Gemini's is the only call made. *)
Theorem direct_answer_verbatim cfg req w text :
  PyStr.strip (query req) <> "" ->
  gemini w (prompt (PyStr.strip (query req))) = inr text ->
  PyStr.strip text <> "" ->
  PyStr.lower (PyStr.strip text) <> "google" ->
  PyStr.lower (PyStr.strip text) <> "youtube" ->
  search coerce_str cfg req w
  = (Return {| source := "gemini"; answer := Some (PyStr.strip text);
               results := None |},
     [GeminiGenerate (prompt (PyStr.strip (query req)))]).
Proof.
  intros Hq Hg Hne Hgo Hyt.
  rewrite (search_answered cfg req w text Hq Hg). unfold interpret.
  apply nonempty_true in Hne. rewrite Hne.
  apply String.eqb_neq in Hgo, Hyt. cbn [existsb]. rewrite Hgo, Hyt.
  reflexivity.
Qed.

(** C10. For a valid query, when Gemini answers and the stripped answer is
    the empty string, [search] raises status 422, "Unable to determine
    search method; try rephrasing", having called Gemini and nothing else. *)
Theorem empty_answer_unroutable cfg req w text :
  PyStr.strip (query req) <> "" ->
  gemini w (prompt (PyStr.strip (query req))) = inr text ->
  PyStr.strip text = "" ->
  search coerce_str cfg req w
  = (Raise (HTTPException 422
              "Unable to determine search method; try rephrasing"),
     [GeminiGenerate (prompt (PyStr.strip (query req)))]).
Proof.
  intros Hq Hg He.
  rewrite (search_answered cfg req w text Hq Hg). unfold interpret.
  rewrite He. reflexivity.
Qed.

Lemma interpret_google cfg q out :
  PyStr.lower out = "google" ->
  interpret coerce_str cfg q out = google_videos coerce_str cfg q.
Proof.
  intros H. unfold interpret. rewrite H. cbn [existsb].
  rewrite String.eqb_refl. cbn [orb negb]. rewrite andb_false_r. reflexivity.
Qed.

Lemma interpret_youtube cfg q out :
  PyStr.lower out = "youtube" ->
  interpret coerce_str cfg q out = youtube coerce_str cfg q.
Proof.
  intros H. unfold interpret. rewrite H. cbn [existsb].
  rewrite String.eqb_refl. rewrite orb_true_r. cbn [orb negb].
  rewrite andb_false_r. reflexivity.
Qed.

(** *** The Google Videos branch *)

(** C7. On the Google Videos branch with the SerpAPI key set, a response
    without video results (the key "video_results" missing, or an empty
    list under it) is a success: source "google_videos" and an empty
    result list. *)
Theorem google_videos_no_match cfg req w text k data :
  PyStr.strip (query req) <> "" ->
  gemini w (prompt (PyStr.strip (query req))) = inr text ->
  PyStr.lower (PyStr.strip text) = "google" ->
  configured (SERPAPI_API_KEY cfg) = Some k ->
  serpapi w (google_videos_params (PyStr.strip (query req)) k) = inr data ->
  Py.dict_get data "video_results" (JList []) = JList [] ->
  search coerce_str cfg req w
  = (Return {| source := "google_videos"; answer := None; results := Some [] |},
     [GeminiGenerate (prompt (PyStr.strip (query req)));
      SerpApiSearch (google_videos_params (PyStr.strip (query req)) k)]).
Proof.
  intros Hq Hg Hl Hk Hd Hv.
  rewrite (search_answered cfg req w text Hq Hg).
  rewrite (interpret_google cfg _ _ Hl).
  rewrite (google_videos_run cfg _ w k data Hk Hd), Hv. reflexivity.
Qed.

(** *** Missing SerpAPI key *)

(** C5. Without a SerpAPI key, the Google Videos branch raises status 500
    ("SERPAPI_API_KEY not set"), and so does the YouTube branch
    ("No YouTube search API key available") whenever the YouTube Data API
    gave no items (no key, an exception, or an empty list): in neither
    case is a result list returned. *)
Theorem missing_serpapi_key_is_an_error cfg req w text :
  PyStr.strip (query req) <> "" ->
  gemini w (prompt (PyStr.strip (query req))) = inr text ->
  configured (SERPAPI_API_KEY cfg) = None ->
  (PyStr.lower (PyStr.strip text) = "google" ->
   search coerce_str cfg req w
   = (Raise (HTTPException 500 "SERPAPI_API_KEY not set"),
      [GeminiGenerate (prompt (PyStr.strip (query req)))]))
  /\ (PyStr.lower (PyStr.strip text) = "youtube" ->
      primary_unavailable cfg w (PyStr.strip (query req)) ->
      search coerce_str cfg req w
      = (Raise (HTTPException 500 "No YouTube search API key available"),
         GeminiGenerate (prompt (PyStr.strip (query req)))
           :: youtube_attempt cfg (PyStr.strip (query req)))).
Proof.
  intros Hq Hg Hk.
  rewrite (search_answered cfg req w text Hq Hg). split.
  - intros Hl. rewrite (interpret_google cfg _ _ Hl).
    unfold google_videos. rewrite Hk. reflexivity.
  - intros Hl Hp. rewrite (interpret_youtube cfg _ _ Hl).
    destruct (youtube_data_items_run cfg (PyStr.strip (query req)) w)
      as (items & Hi & Hu & _).
    rewrite (youtube_run cfg _ w items _ Hi).
    apply Hu in Hp. rewrite Hp. cbn [negb].
    unfold serpapi_youtube. rewrite Hk. simpl. rewrite app_nil_r. reflexivity.
Qed.

(** *** Normalisation of the items *)


Lemma VideoResult_init_channel t l d c n r :
  VideoResult_init coerce_str t l d c n = Return r ->
  validate_optional_str coerce_str c = Return (channel r).
Proof.
  unfold VideoResult_init. intros H.
  destruct (validate_str coerce_str t); simpl in H; [|discriminate].
  destruct (validate_str coerce_str l); simpl in H; [|discriminate].
  destruct (validate_optional_str coerce_str d); simpl in H; [|discriminate].
  destruct (validate_optional_str coerce_str c); simpl in H; [|discriminate].
  destruct (validate_optional_str coerce_str n); simpl in H; [|discriminate].
  injection H as <-. reflexivity.
Qed.


(** *** The YouTube branch *)

Lemma serpapi_youtube_trace cfg q w c :
  In c (snd (serpapi_youtube coerce_str cfg q w)) ->
  exists k, configured (SERPAPI_API_KEY cfg) = Some k
            /\ c = SerpApiSearch (youtube_params q k).
Proof.
  unfold serpapi_youtube.
  destruct (configured (SERPAPI_API_KEY cfg)) as [k|]; [|intros []].
  rewrite bind_run. unfold try_get_dict. fold (youtube_params q k).
  intros H. exists k. split; [reflexivity|].
  destruct (serpapi w (youtube_params q k)); simpl in H;
    destruct H as [<-|H]; try reflexivity; try contradiction.
Qed.

Lemma serpapi_youtube_calls cfg q w k :
  configured (SERPAPI_API_KEY cfg) = Some k ->
  In (SerpApiSearch (youtube_params q k))
     (snd (serpapi_youtube coerce_str cfg q w)).
Proof.
  intros Hk. unfold serpapi_youtube. rewrite Hk, bind_run.
  unfold try_get_dict. fold (youtube_params q k).
  destruct (serpapi w (youtube_params q k)); simpl; auto.
Qed.

(** C2. When Gemini's stripped answer is "youtube" in any case: a call to
    the YouTube Data API appears in the trace only with a configured key;
    if that API is unavailable (no key, an exception of any message, or
    empty items), the outcome and the remaining calls of [search] are those
    of the SerpAPI fallback with the engine "youtube", so nothing of the
    failure reaches the caller; and every response returned on this branch
    has the source "youtube". *)
Theorem youtube_branch_falls_back cfg req w text :
  PyStr.strip (query req) <> "" ->
  gemini w (prompt (PyStr.strip (query req))) = inr text ->
  PyStr.lower (PyStr.strip text) = "youtube" ->
  (forall key q',
      In (YouTubeSearchList key q') (snd (search coerce_str cfg req w)) ->
      configured (YOUTUBE_API_KEY cfg) = Some key)
  /\ (primary_unavailable cfg w (PyStr.strip (query req)) ->
      search coerce_str cfg req w
      = (map_outcome youtube_response
           (fst (serpapi_youtube coerce_str cfg (PyStr.strip (query req)) w)),
         GeminiGenerate (prompt (PyStr.strip (query req)))
           :: (youtube_attempt cfg (PyStr.strip (query req))
               ++ snd (serpapi_youtube coerce_str cfg
                         (PyStr.strip (query req)) w))%list)
      /\ forall k,
           configured (SERPAPI_API_KEY cfg) = Some k ->
           In (SerpApiSearch (youtube_params (PyStr.strip (query req)) k))
              (snd (search coerce_str cfg req w)))
  /\ (forall r,
         fst (search coerce_str cfg req w) = Return r -> source r = "youtube").
Proof.
  intros Hq Hg Hl.
  rewrite (search_answered cfg req w text Hq Hg).
  rewrite (interpret_youtube cfg _ _ Hl).
  set (q := PyStr.strip (query req)).
  destruct (youtube_data_items_run cfg q w) as (items & Hi & Hu & _).
  rewrite (youtube_run cfg q w items _ Hi).
  assert (Hattempt : forall key q',
             In (YouTubeSearchList key q') (youtube_attempt cfg q) ->
             configured (YOUTUBE_API_KEY cfg) = Some key).
  { unfold youtube_attempt. intros key q'.
    destruct (configured (YOUTUBE_API_KEY cfg)); simpl; [|tauto].
    intros [E|[]]. congruence. }
  split; [|split].
  - intros key q' [E|H]; [discriminate|].
    destruct (negb (Py.truthy items)); simpl in H; [|eauto].
    apply in_app_or in H. destruct H as [H|H]; [eauto|].
    apply serpapi_youtube_trace in H. destruct H as (k & _ & E). discriminate.
  - intros Hp. apply Hu in Hp. rewrite Hp. cbn [negb fst snd].
    split; [reflexivity|].
    intros k Hk. right. apply in_or_app. right.
    apply serpapi_youtube_calls. assumption.
  - intros r.
    destruct (negb (Py.truthy items)); cbn [fst];
      match goal with |- map_outcome _ ?o = _ -> _ => destruct o end;
      simpl; intros E; try discriminate; injection E as <-; reflexivity.
Qed.

(** *** How many records a branch returns *)

Lemma sliced_comprehension {A} (f : json -> outcome A) (items : list json) :
  Forall (fun v => exists r, f v = Return r) (firstn 5 items) ->
  exists rs,
    (vs <~ Py.iter_slice5 (JList items) ;; comprehension f vs) = Return rs
    /\ length rs = Nat.min 5 (length items)
    /\ Forall2 (fun v r => f v = Return r) (firstn 5 items) rs.
Proof.
  intros Hwf. destruct (comprehension_total f _ Hwf) as [rs Hrs].
  exists rs. cbn [Py.iter_slice5 obind]. split; [assumption|]. split.
  - rewrite (comprehension_length _ _ _ Hrs). apply length_firstn.
  - apply comprehension_Forall2. assumption.
Qed.

Lemma truthy_items (items : list json) :
  Py.truthy (JList items) = true <-> items <> [].
Proof. destruct items; simpl; split; congruence. Qed.

(** C4, as the code has it. Given items that normalise: the Google Videos
    branch and the SerpAPI fallback of the YouTube branch return the
    records of the first five items, in the provider's order, so five
    records for a longer list and as many as there are items for a shorter
    one, none included; the YouTube Data API path returns one record for
    each item of a non-empty list, in order, without cutting it (the
    request asks for at most five, maxResults=5). *)
Theorem results_cut_on_serpapi_paths cfg req w text items :
  PyStr.strip (query req) <> "" ->
  gemini w (prompt (PyStr.strip (query req))) = inr text ->
  (PyStr.lower (PyStr.strip text) = "google" ->
   forall k data,
     configured (SERPAPI_API_KEY cfg) = Some k ->
     serpapi w (google_videos_params (PyStr.strip (query req)) k) = inr data ->
     Py.dict_get data "video_results" (JList []) = JList items ->
     Forall (fun v => exists r, google_videos_result coerce_str v = Return r)
            (firstn 5 items) ->
     exists rs,
       fst (search coerce_str cfg req w) = Return (google_videos_response rs)
       /\ length rs = Nat.min 5 (length items)
       /\ Forall2 (fun v r => google_videos_result coerce_str v = Return r)
                  (firstn 5 items) rs)
  /\ (PyStr.lower (PyStr.strip text) = "youtube" ->
      primary_unavailable cfg w (PyStr.strip (query req)) ->
      forall k data,
        configured (SERPAPI_API_KEY cfg) = Some k ->
        serpapi w (youtube_params (PyStr.strip (query req)) k) = inr data ->
        Py.dict_get data "video_results" (JList []) = JList items ->
        Forall (fun v => exists r, serpapi_youtube_result coerce_str v = Return r)
               (firstn 5 items) ->
        exists rs,
          fst (search coerce_str cfg req w) = Return (youtube_response rs)
          /\ length rs = Nat.min 5 (length items)
          /\ Forall2 (fun v r => serpapi_youtube_result coerce_str v = Return r)
                     (firstn 5 items) rs)
  /\ (PyStr.lower (PyStr.strip text) = "youtube" ->
      forall key resp,
        configured (YOUTUBE_API_KEY cfg) = Some key ->
        youtube_data w key (PyStr.strip (query req)) = inr resp ->
        Py.dict_get resp "items" (JList []) = JList items ->
        items <> [] ->
        Forall (fun v => exists r, youtube_data_result coerce_str v = Return r)
               items ->
        exists rs,
          fst (search coerce_str cfg req w) = Return (youtube_response rs)
          /\ length rs = length items
          /\ Forall2 (fun v r => youtube_data_result coerce_str v = Return r)
                     items rs).
Proof.
  intros Hq Hg.
  rewrite (search_answered cfg req w text Hq Hg). cbn [fst].
  set (q := PyStr.strip (query req)).
  split; [|split].
  - intros Hl k data Hk Hd Hv Hwf.
    rewrite (interpret_google cfg _ _ Hl).
    rewrite (google_videos_run cfg q w k data Hk Hd), Hv. cbn [fst].
    destruct (sliced_comprehension _ items Hwf) as (rs & E & Hlen & Hall).
    exists rs. rewrite E. auto.
  - intros Hl Hp k data Hk Hd Hv Hwf.
    rewrite (interpret_youtube cfg _ _ Hl).
    destruct (youtube_data_items_run cfg q w) as (its & Hi & Hu & _).
    rewrite (youtube_run cfg q w its _ Hi).
    apply Hu in Hp. rewrite Hp. cbn [negb fst].
    rewrite (serpapi_youtube_run cfg q w k data Hk Hd), Hv. cbn [fst].
    destruct (sliced_comprehension _ items Hwf) as (rs & E & Hlen & Hall).
    exists rs. rewrite E. auto.
  - intros Hl key resp Hk Hr Hv Hne Hwf.
    rewrite (interpret_youtube cfg _ _ Hl).
    destruct (youtube_data_items_run cfg q w) as (its & Hi & _ & Hits).
    rewrite (youtube_run cfg q w its _ Hi).
    rewrite (Hits key resp Hk Hr), Hv.
    apply truthy_items in Hne. rewrite Hne. cbn [negb fst Py.iter obind].
    destruct (comprehension_total _ _ Hwf) as [rs Hrs].
    exists rs. rewrite Hrs. split; [reflexivity|]. split.
    + apply (comprehension_length _ _ _ Hrs).
    + apply comprehension_Forall2. assumption.
Qed.

End Properties.

(** ** Further properties of the handler *)

Section Paths.

Context {U : Unicode}.

Variable coerce_str : json -> option string.

Lemma interpret_cases cfg q out :
  (out <> "" /\ PyStr.lower out <> "google" /\ PyStr.lower out <> "youtube"
   /\ interpret coerce_str cfg q out = ret (gemini_response out))
  \/ (PyStr.lower out = "google"
      /\ interpret coerce_str cfg q out = google_videos coerce_str cfg q)
  \/ (PyStr.lower out = "youtube"
      /\ interpret coerce_str cfg q out = youtube coerce_str cfg q)
  \/ (out = ""
      /\ interpret coerce_str cfg q out
         = raise (HTTPException 422
                    "Unable to determine search method; try rephrasing")).
Proof.
  destruct (String.eqb_spec (PyStr.lower out) "google") as [Hg|Hg].
  { right. left. split; [assumption|]. apply interpret_google. assumption. }
  destruct (String.eqb_spec (PyStr.lower out) "youtube") as [Hy|Hy].
  { right. right. left. split; [assumption|]. apply interpret_youtube.
    assumption. }
  destruct out as [|c out'].
  - right. right. right. split; reflexivity.
  - left. repeat split; try assumption; try discriminate.
    unfold interpret. apply String.eqb_neq in Hg, Hy.
    cbn [PyStr.nonempty existsb]. rewrite Hg, Hy. reflexivity.
Qed.

Lemma google_videos_path cfg q w text :
  gemini w (prompt q) = inr text ->
  PyStr.lower (PyStr.strip text) = "google" ->
  answered_path coerce_str cfg q w
    (fst (google_videos coerce_str cfg q w))
    (snd (google_videos coerce_str cfg q w)).
Proof.
  intros Hg Hl.
  destruct (configured (SERPAPI_API_KEY cfg)) as [k|] eqn:Hk.
  - destruct (serpapi w (google_videos_params q k)) as [e|data] eqn:Hd.
    + unfold google_videos. rewrite Hk, bind_run. unfold try_get_dict.
      fold (google_videos_params q k). rewrite Hd. cbn [fst snd raise app].
      eapply path_google_error; eassumption.
    + rewrite (google_videos_run coerce_str cfg q w k data Hk Hd).
      cbn [fst snd]. eapply path_google_results; eassumption.
  - unfold google_videos. rewrite Hk. cbn [fst snd raise].
    eapply path_google_no_key; eassumption.
Qed.

Lemma youtube_path cfg q w text :
  gemini w (prompt q) = inr text ->
  PyStr.lower (PyStr.strip text) = "youtube" ->
  answered_path coerce_str cfg q w
    (fst (youtube coerce_str cfg q w)) (snd (youtube coerce_str cfg q w)).
Proof.
  intros Hg Hl.
  destruct (youtube_data_items_run cfg q w) as (items & Hi & Hu & Hits).
  rewrite (youtube_run coerce_str cfg q w items _ Hi).
  destruct (Py.truthy items) eqn:Ht; cbn [negb fst snd].
  - unfold youtube_attempt, primary_unavailable in *.
    destruct (configured (YOUTUBE_API_KEY cfg)) as [key|] eqn:Hk.
    + destruct (youtube_data w key q) as [e|resp] eqn:Hr.
      * assert (F : true = false) by (apply Hu; exact I). discriminate.
      * rewrite (Hits key resp eq_refl Hr) in *.
        eapply path_youtube_data; eassumption.
    + assert (F : true = false) by (apply Hu; exact I). discriminate.
  - assert (Hp : primary_unavailable cfg w q) by (apply Hu; reflexivity).
    destruct (configured (SERPAPI_API_KEY cfg)) as [k|] eqn:Hk.
    + destruct (serpapi w (youtube_params q k)) as [e|data] eqn:Hd.
      * unfold serpapi_youtube. rewrite Hk, bind_run. unfold try_get_dict.
        fold (youtube_params q k). rewrite Hd.
        cbn [fst snd raise app map_outcome].
        eapply path_fallback_error; eassumption.
      * rewrite (serpapi_youtube_run coerce_str cfg q w k data Hk Hd).
        cbn [fst snd]. eapply path_fallback_results; eassumption.
    + unfold serpapi_youtube. rewrite Hk. cbn [fst snd raise map_outcome].
      rewrite app_nil_r. eapply path_youtube_no_key; eassumption.
Qed.

(** Every run of [search] is the rejection of an empty query or Gemini's
    call followed by one of the paths. *)
Lemma search_paths cfg req w :
  (PyStr.strip (query req) = ""
   /\ search coerce_str cfg req w
      = (Raise (HTTPException 400 "Query must not be empty"), []))
  \/ (PyStr.strip (query req) <> ""
      /\ exists o t,
           answered_path coerce_str cfg (PyStr.strip (query req)) w o t
           /\ search coerce_str cfg req w
              = (o, GeminiGenerate (prompt (PyStr.strip (query req))) :: t)).
Proof.
  set (q := PyStr.strip (query req)).
  destruct (String.eqb_spec q "") as [Hq|Hq].
  { left. split; [assumption|]. unfold search. fold q. rewrite Hq.
    reflexivity. }
  right. split; [assumption|].
  destruct (gemini w (prompt q)) as [e|text] eqn:Hg.
  - exists (Raise (HTTPException 502 ("Gemini API error: " ++ e))), [].
    split; [apply path_gemini_error; assumption|].
    unfold search. fold q. apply nonempty_true in Hq. rewrite Hq.
    cbn [negb]. rewrite bind_run. unfold ask_gemini. rewrite bind_run.
    unfold try_generate_content, ret. rewrite Hg. reflexivity.
  - rewrite (search_answered coerce_str cfg req w text Hq Hg). fold q.
    do 2 eexists. split; [|reflexivity].
    destruct (interpret_cases cfg q (PyStr.strip text))
      as [(Hne & Hng & Hny & E)|[(Hl & E)|[(Hl & E)|(He & E)]]]; rewrite E.
    + apply path_direct_answer; assumption.
    + apply google_videos_path with text; assumption.
    + apply youtube_path with text; assumption.
    + apply path_blank_answer with text; assumption.
Qed.

(** Conversely, a path tells the run. *)
Lemma search_of_path cfg req w o t :
  PyStr.strip (query req) <> "" ->
  answered_path coerce_str cfg (PyStr.strip (query req)) w o t ->
  search coerce_str cfg req w
  = (o, GeminiGenerate (prompt (PyStr.strip (query req))) :: t).
Proof.
  set (q := PyStr.strip (query req)). intros Hq Hp.
  assert (Hyt : forall text,
             gemini w (prompt q) = inr text ->
             PyStr.lower (PyStr.strip text) = "youtube" ->
             search coerce_str cfg req w
             = (fst (youtube coerce_str cfg q w),
                GeminiGenerate (prompt q) :: snd (youtube coerce_str cfg q w))).
  { intros text Hg Hl.
    rewrite (search_answered coerce_str cfg req w text Hq Hg). fold q.
    rewrite (interpret_youtube coerce_str cfg _ _ Hl). reflexivity. }
  assert (Hgo : forall text,
             gemini w (prompt q) = inr text ->
             PyStr.lower (PyStr.strip text) = "google" ->
             search coerce_str cfg req w
             = (fst (google_videos coerce_str cfg q w),
                GeminiGenerate (prompt q)
                  :: snd (google_videos coerce_str cfg q w))).
  { intros text Hg Hl.
    rewrite (search_answered coerce_str cfg req w text Hq Hg). fold q.
    rewrite (interpret_google coerce_str cfg _ _ Hl). reflexivity. }
  destruct (youtube_data_items_run cfg q w) as (items & Hi & Hu & Hits).
  pose proof (youtube_run coerce_str cfg q w items _ Hi) as Hrun.
  destruct Hp as [e Hg | text Hg Hne Hng Hny | text Hg He
                 | text Hg Hl Hk | text k e Hg Hl Hk Hd | text k data Hg Hl Hk Hd
                 | text Hg Hl Hp Hk | text k e Hg Hl Hp Hk Hd
                 | text k data Hg Hl Hp Hk Hd | text key resp Hg Hl Hk Hr Ht].
  - unfold search. fold q. apply nonempty_true in Hq. rewrite Hq.
    cbn [negb]. rewrite bind_run. unfold ask_gemini. rewrite bind_run.
    unfold try_generate_content, ret. rewrite Hg. reflexivity.
  - rewrite (search_answered coerce_str cfg req w text Hq Hg). fold q.
    unfold interpret. apply nonempty_true in Hne. rewrite Hne.
    apply String.eqb_neq in Hng, Hny. cbn [existsb]. rewrite Hng, Hny.
    reflexivity.
  - rewrite (search_answered coerce_str cfg req w text Hq Hg). fold q.
    unfold interpret. rewrite He. reflexivity.
  - rewrite (Hgo text Hg Hl). unfold google_videos. rewrite Hk. reflexivity.
  - rewrite (Hgo text Hg Hl). unfold google_videos. rewrite Hk, bind_run.
    unfold try_get_dict. fold (google_videos_params q k). rewrite Hd.
    reflexivity.
  - rewrite (Hgo text Hg Hl).
    rewrite (google_videos_run coerce_str cfg q w k data Hk Hd). reflexivity.
  - rewrite (Hyt text Hg Hl), Hrun. apply Hu in Hp. rewrite Hp.
    unfold serpapi_youtube. rewrite Hk. cbn [negb fst snd raise map_outcome].
    rewrite app_nil_r. reflexivity.
  - rewrite (Hyt text Hg Hl), Hrun. apply Hu in Hp. rewrite Hp.
    unfold serpapi_youtube. rewrite Hk, bind_run. unfold try_get_dict.
    fold (youtube_params q k). rewrite Hd. reflexivity.
  - rewrite (Hyt text Hg Hl), Hrun. apply Hu in Hp. rewrite Hp.
    rewrite (serpapi_youtube_run coerce_str cfg q w k data Hk Hd).
    reflexivity.
  - rewrite (Hyt text Hg Hl), Hrun. rewrite (Hits key resp Hk Hr), Ht.
    unfold youtube_attempt in Hi. rewrite Hk in Hi.
    unfold youtube_attempt. rewrite Hk. reflexivity.
Qed.

(** *** What the normalisers raise *)

Lemma get_raises v k d e : Py.get v k d = Raise e -> e = Uncaught.
Proof. destruct v; simpl; congruence. Qed.

Lemma getitem_raises v k e : Py.getitem v k = Raise e -> e = Uncaught.
Proof.
  destruct v; simpl; try congruence. destruct (Py.lookup d k); congruence.
Qed.

Lemma validate_str_raises v e :
  validate_str coerce_str v = Raise e -> e = Uncaught.
Proof.
  destruct v; simpl; try congruence; destruct (coerce_str _); congruence.
Qed.

Lemma validate_optional_str_raises v e :
  validate_optional_str coerce_str v = Raise e -> e = Uncaught.
Proof.
  unfold validate_optional_str.
  destruct v; try congruence;
    match goal with
    | |- obind (validate_str _ ?x) _ = _ -> _ =>
        destruct (validate_str coerce_str x) eqn:E; simpl;
        [congruence | intros H; injection H as <-;
                      exact (validate_str_raises _ _ E)]
    end.
Qed.

Lemma VideoResult_init_raises t l d c n e :
  VideoResult_init coerce_str t l d c n = Raise e -> e = Uncaught.
Proof.
  unfold VideoResult_init.
  destruct (validate_str coerce_str t) eqn:E1; simpl;
    [|intros H; injection H as <-; eauto using validate_str_raises].
  destruct (validate_str coerce_str l) eqn:E2; simpl;
    [|intros H; injection H as <-; eauto using validate_str_raises].
  destruct (validate_optional_str coerce_str d) eqn:E3; simpl;
    [|intros H; injection H as <-; eauto using validate_optional_str_raises].
  destruct (validate_optional_str coerce_str c) eqn:E4; simpl;
    [|intros H; injection H as <-; eauto using validate_optional_str_raises].
  destruct (validate_optional_str coerce_str n) eqn:E5; simpl;
    [|intros H; injection H as <-; eauto using validate_optional_str_raises].
  discriminate.
Qed.

Lemma channel_of_raises v e : channel_of v = Raise e -> e = Uncaught.
Proof.
  unfold channel_of.
  destruct (Py.get v "channel" (JDict [])) as [c|] eqn:E1; simpl;
    [|intros H; injection H as <-; eauto using get_raises].
  destruct (Py.get c "name" JNull) as [n|] eqn:E2; simpl;
    [|intros H; injection H as <-; eauto using get_raises].
  destruct (Py.truthy n); [discriminate|]. apply get_raises.
Qed.

Ltac raises_step :=
  match goal with
  | |- obind ?o _ = Raise _ -> _ =>
      let E := fresh "E" in
      destruct o eqn:E; cbn [obind];
      [|let H := fresh "H" in
        intros H; injection H as <-;
        eauto using get_raises, getitem_raises, channel_of_raises]
  end.

Lemma google_videos_result_raises v e :
  google_videos_result coerce_str v = Raise e -> e = Uncaught.
Proof.
  unfold google_videos_result. repeat raises_step.
  apply VideoResult_init_raises.
Qed.

Lemma serpapi_youtube_result_raises v e :
  serpapi_youtube_result coerce_str v = Raise e -> e = Uncaught.
Proof.
  unfold serpapi_youtube_result. repeat raises_step.
  apply VideoResult_init_raises.
Qed.

Lemma youtube_data_result_raises v e :
  youtube_data_result coerce_str v = Raise e -> e = Uncaught.
Proof.
  unfold youtube_data_result. repeat raises_step.
  apply VideoResult_init_raises.
Qed.

Lemma comprehension_raises {A B} (f : A -> outcome B) (l : list A) e :
  comprehension f l = Raise e -> exists x, In x l /\ f x = Raise e.
Proof.
  induction l as [|x l IH]; simpl; [discriminate|].
  destruct (f x) as [y|e'] eqn:Ex; simpl.
  - destruct (comprehension f l) as [ys|e'']; simpl; [discriminate|].
    intros H. injection H as <-. destruct (IH eq_refl) as (x' & Hin & Hx').
    exists x'. auto.
  - intros H. injection H as <-. exists x. auto.
Qed.

Lemma comprehension_Exists {A B} (f : A -> outcome B) (l : list A) :
  (forall x e, f x = Raise e -> e = Uncaught) ->
  Exists (fun x => forall y, f x <> Return y) l ->
  comprehension f l = Raise Uncaught.
Proof.
  intros Hf. induction 1 as [x l Hx|x l _ IH]; simpl.
  - destruct (f x) as [y|e] eqn:Ex; [destruct (Hx y eq_refl)|].
    rewrite (Hf x e Ex). reflexivity.
  - destruct (f x) as [y|e] eqn:Ex; simpl.
    + rewrite IH. reflexivity.
    + rewrite (Hf x e Ex). reflexivity.
Qed.

Lemma sliced_results_raises {A} (f : json -> outcome A) vids e :
  (forall v e, f v = Raise e -> e = Uncaught) ->
  sliced_results f vids = Raise e -> e = Uncaught.
Proof.
  intros Hf. unfold sliced_results.
  destruct (Py.iter_slice5 vids) as [vs|e'] eqn:E; simpl.
  - intros H. apply comprehension_raises in H. destruct H as (x & _ & Hx).
    eauto.
  - intros H. injection H as <-. destruct vids; simpl in E; congruence.
Qed.

Lemma all_results_raises {A} (f : json -> outcome A) items e :
  (forall v e, f v = Raise e -> e = Uncaught) ->
  all_results f items = Raise e -> e = Uncaught.
Proof.
  intros Hf. unfold all_results.
  destruct (Py.iter items) as [vs|e'] eqn:E; simpl.
  - intros H. apply comprehension_raises in H. destruct H as (x & _ & Hx).
    eauto.
  - intros H. injection H as <-. destruct items; simpl in E; congruence.
Qed.

Lemma iter_slice5_length v vs :
  Py.iter_slice5 v = Return vs -> length vs <= 5.
Proof.
  destruct v; cbn [Py.iter_slice5]; intros H; try discriminate.
  - assert (E : vs = map JStr (firstn 5 (PyStr.chars s))) by congruence.
    rewrite E, length_map, length_firstn. apply Nat.le_min_l.
  - assert (E : vs = firstn 5 l) by congruence.
    rewrite E, length_firstn. apply Nat.le_min_l.
Qed.

Lemma sliced_results_length {A} (f : json -> outcome A) vids rs :
  sliced_results f vids = Return rs -> length rs <= 5.
Proof.
  unfold sliced_results.
  destruct (Py.iter_slice5 vids) as [vs|e] eqn:E; cbn [obind]; [|discriminate].
  intros H. rewrite (comprehension_length _ _ _ H).
  exact (iter_slice5_length _ _ E).
Qed.

(** *** Errors *)

Lemma map_outcome_raise {A B} (f : A -> B) (o : outcome A) e :
  map_outcome f o = Raise e -> o = Raise e.
Proof. destruct o; simpl; congruence. Qed.

Lemma http_error_path cfg q w o t s d :
  answered_path coerce_str cfg q w o t ->
  o = Raise (HTTPException s d) ->
  (exists e, gemini w (prompt q) = inl e
             /\ s = 502 /\ d = "Gemini API error: " ++ e /\ t = [])
  \/ (exists text, gemini w (prompt q) = inr text /\ PyStr.strip text = ""
                   /\ s = 422
                   /\ d = "Unable to determine search method; try rephrasing"
                   /\ t = [])
  \/ (exists text, gemini w (prompt q) = inr text
                   /\ PyStr.lower (PyStr.strip text) = "google"
                   /\ configured (SERPAPI_API_KEY cfg) = None
                   /\ s = 500 /\ d = "SERPAPI_API_KEY not set" /\ t = [])
  \/ (exists text k e, gemini w (prompt q) = inr text
                   /\ PyStr.lower (PyStr.strip text) = "google"
                   /\ configured (SERPAPI_API_KEY cfg) = Some k
                   /\ serpapi w (google_videos_params q k) = inl e
                   /\ s = 502 /\ d = "SerpAPI error: " ++ e
                   /\ t = [SerpApiSearch (google_videos_params q k)])
  \/ (exists text, gemini w (prompt q) = inr text
                   /\ PyStr.lower (PyStr.strip text) = "youtube"
                   /\ primary_unavailable cfg w q
                   /\ configured (SERPAPI_API_KEY cfg) = None
                   /\ s = 500 /\ d = "No YouTube search API key available"
                   /\ t = youtube_attempt cfg q)
  \/ (exists text k e, gemini w (prompt q) = inr text
                   /\ PyStr.lower (PyStr.strip text) = "youtube"
                   /\ primary_unavailable cfg w q
                   /\ configured (SERPAPI_API_KEY cfg) = Some k
                   /\ serpapi w (youtube_params q k) = inl e
                   /\ s = 502 /\ d = "SerpAPI YouTube error: " ++ e
                   /\ t = (youtube_attempt cfg q
                           ++ [SerpApiSearch (youtube_params q k)])%list).
Proof.
  intros Hp Ho.
  destruct Hp as [e Hg | text Hg Hne Hng Hny | text Hg He
                 | text Hg Hl Hk | text k e Hg Hl Hk Hd | text k data Hg Hl Hk Hd
                 | text Hg Hl Hp Hk | text k e Hg Hl Hp Hk Hd
                 | text k data Hg Hl Hp Hk Hd | text key resp Hg Hl Hk Hr Ht];
    try discriminate;
    try (apply map_outcome_raise in Ho;
         first [ apply sliced_results_raises in Ho
               | apply all_results_raises in Ho ];
         [discriminate
         | eauto using google_videos_result_raises,
             serpapi_youtube_result_raises, youtube_data_result_raises]);
    injection Ho as <- <-.
  - left. eauto 10.
  - right. left. eauto 10.
  - right. right. left. eauto 10.
  - right. right. right. left. exists text, k, e. auto 10.
  - right. right. right. right. left. eauto 10.
  - right. right. right. right. right. exists text, k, e. auto 10.
Qed.


(** X1. For a valid query, an exception of an upstream call that is not
    swallowed surfaces as status 502 with the name of the service and the
    text of the exception: "Gemini API error: e" when Gemini's call raises
    (nothing else is called), "SerpAPI error: e" when SerpAPI raises on the
    Google Videos branch, "SerpAPI YouTube error: e" when it raises in the
    fallback of the YouTube branch. *)
Theorem upstream_errors_surface_as_502 cfg req w :
  PyStr.strip (query req) <> "" ->
  (forall e,
      gemini w (prompt (PyStr.strip (query req))) = inl e ->
      search coerce_str cfg req w
      = (Raise (HTTPException 502 ("Gemini API error: " ++ e)),
         [GeminiGenerate (prompt (PyStr.strip (query req)))]))
  /\ (forall text k e,
         gemini w (prompt (PyStr.strip (query req))) = inr text ->
         PyStr.lower (PyStr.strip text) = "google" ->
         configured (SERPAPI_API_KEY cfg) = Some k ->
         serpapi w (google_videos_params (PyStr.strip (query req)) k) = inl e ->
         search coerce_str cfg req w
         = (Raise (HTTPException 502 ("SerpAPI error: " ++ e)),
            [GeminiGenerate (prompt (PyStr.strip (query req)));
             SerpApiSearch (google_videos_params (PyStr.strip (query req)) k)]))
  /\ (forall text k e,
         gemini w (prompt (PyStr.strip (query req))) = inr text ->
         PyStr.lower (PyStr.strip text) = "youtube" ->
         primary_unavailable cfg w (PyStr.strip (query req)) ->
         configured (SERPAPI_API_KEY cfg) = Some k ->
         serpapi w (youtube_params (PyStr.strip (query req)) k) = inl e ->
         search coerce_str cfg req w
         = (Raise (HTTPException 502 ("SerpAPI YouTube error: " ++ e)),
            GeminiGenerate (prompt (PyStr.strip (query req)))
              :: (youtube_attempt cfg (PyStr.strip (query req))
                  ++ [SerpApiSearch
                        (youtube_params (PyStr.strip (query req)) k)])%list)).
Proof.
  intros Hq. repeat split; intros.
  - apply search_of_path; [assumption|]. apply path_gemini_error. assumption.
  - apply (search_of_path cfg req w _ _ Hq).
    eapply path_google_error; eassumption.
  - apply (search_of_path cfg req w _ _ Hq).
    eapply path_fallback_error; eassumption.
Qed.

(** X2. Whatever the request, the configuration and the services do, an
    [HTTPException] that leaves [search] is one of seven: 400 "Query must
    not be empty"; 422 "Unable to determine search method; try rephrasing";
    500 "SERPAPI_API_KEY not set" or "No YouTube search API key available";
    502 with "Gemini API error: ", "SerpAPI error: " or "SerpAPI YouTube
    error: " before the text of an upstream exception. *)
Theorem http_errors_taxonomy cfg req w s d :
  fst (search coerce_str cfg req w) = Raise (HTTPException s d) ->
  (s = 400 /\ d = "Query must not be empty")
  \/ (s = 422 /\ d = "Unable to determine search method; try rephrasing")
  \/ (s = 500 /\ (d = "SERPAPI_API_KEY not set"
                  \/ d = "No YouTube search API key available"))
  \/ (s = 502 /\ exists e, d = "Gemini API error: " ++ e
                           \/ d = "SerpAPI error: " ++ e
                           \/ d = "SerpAPI YouTube error: " ++ e).
Proof.
  intros H.
  destruct (search_paths cfg req w) as [[Hq E]|[Hq (o & t & Hp & E)]];
    rewrite E in H; cbn [fst] in H.
  - injection H as <- <-. auto.
  - destruct (http_error_path cfg _ w o t s d Hp H)
      as [(e & _ & -> & -> & _)
         |[(text & _ & _ & -> & -> & _)
          |[(text & _ & _ & _ & -> & -> & _)
           |[(text & k & e & _ & _ & _ & _ & -> & -> & _)
            |[(text & _ & _ & _ & _ & -> & -> & _)
             |(text & k & e & _ & _ & _ & _ & _ & -> & -> & _)]]]]];
      eauto 10.
Qed.

(** X3. The two client errors tell their cause: [search] raises status 400
    exactly when the query strips to the empty string, and status 422
    exactly when the query is valid and Gemini answers with text that
    strips to the empty string. *)
Theorem client_errors_tell_their_cause cfg req w :
  ((exists d, fst (search coerce_str cfg req w) = Raise (HTTPException 400 d))
   <-> PyStr.strip (query req) = "")
  /\ ((exists d, fst (search coerce_str cfg req w) = Raise (HTTPException 422 d))
      <-> PyStr.strip (query req) <> ""
          /\ exists text,
               gemini w (prompt (PyStr.strip (query req))) = inr text
               /\ PyStr.strip text = "").
Proof.
  split; split.
  - intros [d H].
    destruct (search_paths cfg req w) as [[Hq E]|[Hq (o & t & Hp & E)]];
      [assumption|].
    rewrite E in H; cbn [fst] in H.
    destruct (http_error_path cfg _ w o t _ _ Hp H)
      as [(e & _ & F & _)
         |[(text & _ & _ & F & _)
          |[(text & _ & _ & _ & F & _)
           |[(text & k & e & _ & _ & _ & _ & F & _)
            |[(text & _ & _ & _ & _ & F & _)
             |(text & k & e & _ & _ & _ & _ & _ & F & _)]]]]];
      discriminate.
  - intros Hq. eexists. unfold search. rewrite Hq. reflexivity.
  - intros [d H].
    destruct (search_paths cfg req w) as [[Hq E]|[Hq (o & t & Hp & E)]];
      rewrite E in H; cbn [fst] in H; [discriminate|].
    split; [assumption|].
    destruct (http_error_path cfg _ w o t _ _ Hp H)
      as [(e & _ & F & _)
         |[(text & Hg & He & _)
          |[(text & _ & _ & _ & F & _)
           |[(text & k & e & _ & _ & _ & _ & F & _)
            |[(text & _ & _ & _ & _ & F & _)
             |(text & k & e & _ & _ & _ & _ & _ & F & _)]]]]];
      try discriminate.
    exists text. auto.
  - intros (Hq & text & Hg & He). eexists.
    rewrite (search_of_path cfg req w _ _ Hq
               (path_blank_answer coerce_str cfg _ w text Hg He)).
    reflexivity.
Qed.

(** X4. Status 500 with a detail is a missing SerpAPI key and nothing else:
    [search] raises an [HTTPException] 500 exactly when the query is valid,
    SERPAPI_KEY is unset or empty, and Gemini's answer is the token
    "google", or the token "youtube" while the YouTube Data API has nothing
    to show. *)
Theorem config_error_iff_missing_serpapi_key cfg req w :
  (exists d, fst (search coerce_str cfg req w) = Raise (HTTPException 500 d))
  <-> PyStr.strip (query req) <> ""
      /\ configured (SERPAPI_API_KEY cfg) = None
      /\ exists text,
           gemini w (prompt (PyStr.strip (query req))) = inr text
           /\ (PyStr.lower (PyStr.strip text) = "google"
               \/ (PyStr.lower (PyStr.strip text) = "youtube"
                   /\ primary_unavailable cfg w (PyStr.strip (query req)))).
Proof.
  split.
  - intros [d H].
    destruct (search_paths cfg req w) as [[Hq E]|[Hq (o & t & Hp & E)]];
      rewrite E in H; cbn [fst] in H; [discriminate|].
    split; [assumption|].
    destruct (http_error_path cfg _ w o t _ _ Hp H)
      as [(e & _ & F & _)
         |[(text & _ & _ & F & _)
          |[(text & Hg & Hl & Hk & _)
           |[(text & k & e & _ & _ & _ & _ & F & _)
            |[(text & Hg & Hl & Hu & Hk & _)
             |(text & k & e & _ & _ & _ & _ & _ & F & _)]]]]];
      try discriminate; eauto 10.
  - intros (Hq & Hk & text & Hg & [Hl|[Hl Hu]]); eexists.
    + rewrite (search_of_path cfg req w _ _ Hq
                 (path_google_no_key coerce_str cfg _ w text Hg Hl Hk)).
      reflexivity.
    + rewrite (search_of_path cfg req w _ _ Hq
                 (path_youtube_no_key coerce_str cfg _ w text Hg Hl Hu Hk)).
      reflexivity.
Qed.


(** *** Responses *)

Lemma map_outcome_return {A B} (f : A -> B) (o : outcome A) b :
  map_outcome f o = Return b -> exists a, o = Return a /\ b = f a.
Proof.
  destruct o as [a|e]; simpl; [|discriminate].
  intros H. injection H as <-. eauto.
Qed.

Lemma returned_path cfg q w o t r :
  answered_path coerce_str cfg q w o t ->
  o = Return r ->
  (exists text, gemini w (prompt q) = inr text
                /\ PyStr.strip text <> ""
                /\ PyStr.lower (PyStr.strip text) <> "google"
                /\ PyStr.lower (PyStr.strip text) <> "youtube"
                /\ r = gemini_response (PyStr.strip text) /\ t = [])
  \/ (exists text k data rs,
         gemini w (prompt q) = inr text
         /\ PyStr.lower (PyStr.strip text) = "google"
         /\ configured (SERPAPI_API_KEY cfg) = Some k
         /\ serpapi w (google_videos_params q k) = inr data
         /\ sliced_results (google_videos_result coerce_str)
              (Py.dict_get data "video_results" (JList [])) = Return rs
         /\ r = google_videos_response rs
         /\ t = [SerpApiSearch (google_videos_params q k)])
  \/ (exists text k data rs,
         gemini w (prompt q) = inr text
         /\ PyStr.lower (PyStr.strip text) = "youtube"
         /\ primary_unavailable cfg w q
         /\ configured (SERPAPI_API_KEY cfg) = Some k
         /\ serpapi w (youtube_params q k) = inr data
         /\ sliced_results (serpapi_youtube_result coerce_str)
              (Py.dict_get data "video_results" (JList [])) = Return rs
         /\ r = youtube_response rs
         /\ t = (youtube_attempt cfg q
                 ++ [SerpApiSearch (youtube_params q k)])%list)
  \/ (exists text key resp rs,
         gemini w (prompt q) = inr text
         /\ PyStr.lower (PyStr.strip text) = "youtube"
         /\ configured (YOUTUBE_API_KEY cfg) = Some key
         /\ youtube_data w key q = inr resp
         /\ Py.truthy (Py.dict_get resp "items" (JList [])) = true
         /\ all_results (youtube_data_result coerce_str)
              (Py.dict_get resp "items" (JList [])) = Return rs
         /\ r = youtube_response rs
         /\ t = [YouTubeSearchList key q]).
Proof.
  intros Hp Ho.
  destruct Hp as [e Hg | text Hg Hne Hng Hny | text Hg He
                 | text Hg Hl Hk | text k e Hg Hl Hk Hd | text k data Hg Hl Hk Hd
                 | text Hg Hl Hp Hk | text k e Hg Hl Hp Hk Hd
                 | text k data Hg Hl Hp Hk Hd | text key resp Hg Hl Hk Hr Ht];
    try discriminate.
  - injection Ho as <-. left. eauto 10.
  - apply map_outcome_return in Ho. destruct Ho as (rs & E & ->).
    right. left. exists text, k, data, rs. auto 10.
  - apply map_outcome_return in Ho. destruct Ho as (rs & E & ->).
    right. right. left. exists text, k, data, rs. auto 10.
  - apply map_outcome_return in Ho. destruct Ho as (rs & E & ->).
    right. right. right. exists text, key, resp, rs. auto 10.
Qed.

(** X5. Every response [search] returns has one of three shapes: source
    "gemini" with an answer and no results, the answer being non-empty,
    free of surrounding white space and, lower-cased, neither token;
    source "google_videos" with no answer and at most five results; or
    source "youtube" with results and no answer. *)
Theorem response_shape cfg req w r :
  fst (search coerce_str cfg req w) = Return r ->
  (source r = "gemini" /\ results r = None
   /\ exists a, answer r = Some a /\ a <> "" /\ PyStr.strip a = a
                /\ PyStr.lower a <> "google" /\ PyStr.lower a <> "youtube")
  \/ (source r = "google_videos" /\ answer r = None
      /\ exists rs, results r = Some rs /\ length rs <= 5)
  \/ (source r = "youtube" /\ answer r = None
      /\ exists rs, results r = Some rs).
Proof.
  intros H.
  destruct (search_paths cfg req w) as [[Hq E]|[Hq (o & t & Hp & E)]];
    rewrite E in H; cbn [fst] in H; [discriminate|].
  destruct (returned_path cfg _ w o t r Hp H)
    as [(text & _ & Hne & Hg & Hy & -> & _)
       |[(text & k & data & rs & _ & _ & _ & _ & Hrs & -> & _)
        |[(text & k & data & rs & _ & _ & _ & _ & _ & Hrs & -> & _)
         |(text & key & resp & rs & _ & _ & _ & _ & _ & Hrs & -> & _)]]].
  - left. repeat split. exists (PyStr.strip text).
    repeat split; try assumption. apply strip_idempotent.
  - right. left. repeat split. exists rs. split; [reflexivity|].
    exact (sliced_results_length _ _ _ Hrs).
  - right. right. repeat split. exists rs. reflexivity.
  - right. right. repeat split. exists rs. reflexivity.
Qed.

(** X6. The calls of a run, in order: none for a query that strips to the
    empty string; otherwise Gemini's call with the prompt of the stripped
    query, followed by nothing, by one SerpAPI search (engine
    google_videos), by the YouTube Data API attempt, or by that attempt
    and one SerpAPI search (engine youtube). A provider is called only
    with its configured key and with the stripped query, SerpAPI at most
    once, and there are never more than three calls. *)
Theorem calls_made cfg req w :
  (PyStr.strip (query req) = "" /\ snd (search coerce_str cfg req w) = [])
  \/ (PyStr.strip (query req) <> ""
      /\ length (snd (search coerce_str cfg req w)) <= 3
      /\ exists rest,
           snd (search coerce_str cfg req w)
           = GeminiGenerate (prompt (PyStr.strip (query req))) :: rest
           /\ (rest = []
               \/ (exists k,
                      configured (SERPAPI_API_KEY cfg) = Some k
                      /\ rest = [SerpApiSearch
                                   (google_videos_params
                                      (PyStr.strip (query req)) k)])
               \/ (exists key,
                      configured (YOUTUBE_API_KEY cfg) = Some key
                      /\ rest = [YouTubeSearchList key
                                   (PyStr.strip (query req))])
               \/ (exists k,
                      configured (SERPAPI_API_KEY cfg) = Some k
                      /\ rest = [SerpApiSearch
                                   (youtube_params
                                      (PyStr.strip (query req)) k)])
               \/ (exists key k,
                      configured (YOUTUBE_API_KEY cfg) = Some key
                      /\ configured (SERPAPI_API_KEY cfg) = Some k
                      /\ rest = [YouTubeSearchList key
                                   (PyStr.strip (query req));
                                 SerpApiSearch
                                   (youtube_params
                                      (PyStr.strip (query req)) k)]))).
Proof.
  destruct (search_paths cfg req w) as [[Hq E]|[Hq (o & t & Hp & E)]];
    rewrite E; cbn [snd]; [left; auto|].
  right. split; [assumption|].
  set (q := PyStr.strip (query req)) in *.
  assert (Hrest :
            t = []
            \/ (exists k, configured (SERPAPI_API_KEY cfg) = Some k
                          /\ t = [SerpApiSearch (google_videos_params q k)])
            \/ (exists key, configured (YOUTUBE_API_KEY cfg) = Some key
                            /\ t = [YouTubeSearchList key q])
            \/ (exists k, configured (SERPAPI_API_KEY cfg) = Some k
                          /\ t = [SerpApiSearch (youtube_params q k)])
            \/ (exists key k,
                   configured (YOUTUBE_API_KEY cfg) = Some key
                   /\ configured (SERPAPI_API_KEY cfg) = Some k
                   /\ t = [YouTubeSearchList key q;
                           SerpApiSearch (youtube_params q k)])).
  { destruct Hp as [e Hg | text Hg Hne Hng Hny | text Hg He
                   | text Hg Hl Hk | text k e Hg Hl Hk Hd
                   | text k data Hg Hl Hk Hd
                   | text Hg Hl Hp Hk | text k e Hg Hl Hp Hk Hd
                   | text k data Hg Hl Hp Hk Hd
                   | text key resp Hg Hl Hk Hr Ht];
      unfold youtube_attempt;
      try destruct (configured (YOUTUBE_API_KEY cfg)) as [key'|] eqn:Hy;
      cbn [app]; eauto 10. }
  split.
  - destruct Hrest as [->|[(k & _ & ->)|[(key & _ & ->)|[(k & _ & ->)
                      |(key & k & _ & _ & ->)]]]]; simpl; lia.
  - exists t. auto.
Qed.

(** X7. If the YouTube Data API keeps to the [maxResults=5] of the
    request, so that what it returns for the query holds a list of at
    most five items, then no response of [search] carries more than five
    results, on any branch. *)
Theorem at_most_five_results cfg req w r rs :
  honours_max_results w (PyStr.strip (query req)) ->
  fst (search coerce_str cfg req w) = Return r ->
  results r = Some rs ->
  length rs <= 5.
Proof.
  intros Hmax H Hrs.
  destruct (search_paths cfg req w) as [[Hq E]|[Hq (o & t & Hp & E)]];
    rewrite E in H; cbn [fst] in H; [discriminate|].
  destruct (returned_path cfg _ w o t r Hp H)
    as [(text & _ & _ & _ & _ & -> & _)
       |[(text & k & data & rs' & _ & _ & _ & _ & Hs & -> & _)
        |[(text & k & data & rs' & _ & _ & _ & _ & _ & Hs & -> & _)
         |(text & key & resp & rs' & _ & _ & _ & Hr & _ & Hs & -> & _)]]];
    cbn [results gemini_response google_videos_response youtube_response]
      in Hrs; try discriminate; injection Hrs as <-.
  - exact (sliced_results_length _ _ _ Hs).
  - exact (sliced_results_length _ _ _ Hs).
  - destruct (Hmax key resp Hr) as (items & Hi & Hlen).
    rewrite Hi in Hs. unfold all_results in Hs. cbn [Py.iter obind] in Hs.
    rewrite (comprehension_length _ _ _ Hs). assumption.
Qed.


(** *** Items *)

(** X8. SerpAPI's entries beyond the fifth are never looked at: on the
    Google Videos branch, and in the fallback of the YouTube branch, two
    responses whose "video_results" lists agree on their first five
    entries lead to the same outcome after the same calls, whatever the
    later entries are, well formed or not. *)
Theorem entries_beyond_the_fifth_ignored cfg req w1 w2 text k d1 d2 l1 l2 :
  PyStr.strip (query req) <> "" ->
  gemini w1 (prompt (PyStr.strip (query req))) = inr text ->
  gemini w2 (prompt (PyStr.strip (query req))) = inr text ->
  configured (SERPAPI_API_KEY cfg) = Some k ->
  Py.dict_get d1 "video_results" (JList []) = JList l1 ->
  Py.dict_get d2 "video_results" (JList []) = JList l2 ->
  firstn 5 l1 = firstn 5 l2 ->
  (PyStr.lower (PyStr.strip text) = "google" ->
   serpapi w1 (google_videos_params (PyStr.strip (query req)) k) = inr d1 ->
   serpapi w2 (google_videos_params (PyStr.strip (query req)) k) = inr d2 ->
   search coerce_str cfg req w1 = search coerce_str cfg req w2)
  /\ (PyStr.lower (PyStr.strip text) = "youtube" ->
      primary_unavailable cfg w1 (PyStr.strip (query req)) ->
      primary_unavailable cfg w2 (PyStr.strip (query req)) ->
      serpapi w1 (youtube_params (PyStr.strip (query req)) k) = inr d1 ->
      serpapi w2 (youtube_params (PyStr.strip (query req)) k) = inr d2 ->
      search coerce_str cfg req w1 = search coerce_str cfg req w2).
Proof.
  intros Hq Hg1 Hg2 Hk Hd1 Hd2 Hcut.
  assert (Hs : forall A (f : json -> outcome A),
             sliced_results f (JList l1) = sliced_results f (JList l2)).
  { intros A f. unfold sliced_results. cbn [Py.iter_slice5 obind].
    rewrite Hcut. reflexivity. }
  split.
  - intros Hl Hr1 Hr2.
    rewrite (search_of_path cfg req w1 _ _ Hq
               (path_google_results coerce_str cfg _ w1 text k d1
                  Hg1 Hl Hk Hr1)).
    rewrite (search_of_path cfg req w2 _ _ Hq
               (path_google_results coerce_str cfg _ w2 text k d2
                  Hg2 Hl Hk Hr2)).
    rewrite Hd1, Hd2, Hs. reflexivity.
  - intros Hl Hu1 Hu2 Hr1 Hr2.
    rewrite (search_of_path cfg req w1 _ _ Hq
               (path_fallback_results coerce_str cfg _ w1 text k d1
                  Hg1 Hl Hu1 Hk Hr1)).
    rewrite (search_of_path cfg req w2 _ _ Hq
               (path_fallback_results coerce_str cfg _ w2 text k d2
                  Hg2 Hl Hu2 Hk Hr2)).
    rewrite Hd1, Hd2, Hs. reflexivity.
Qed.

(** X9. One item that does not normalise fails the whole request: if any
    of the first five entries of SerpAPI's list (Google Videos branch or
    fallback), or any item of the YouTube Data API's list, cannot be made
    a record, [search] ends in an exception that is no [HTTPException]
    (a bare status 500); the other items are not returned. *)
Theorem one_bad_item_fails_the_request cfg req w text items :
  PyStr.strip (query req) <> "" ->
  gemini w (prompt (PyStr.strip (query req))) = inr text ->
  (PyStr.lower (PyStr.strip text) = "google" ->
   forall k data,
     configured (SERPAPI_API_KEY cfg) = Some k ->
     serpapi w (google_videos_params (PyStr.strip (query req)) k) = inr data ->
     Py.dict_get data "video_results" (JList []) = JList items ->
     Exists (fun v => forall r, google_videos_result coerce_str v <> Return r)
            (firstn 5 items) ->
     fst (search coerce_str cfg req w) = Raise Uncaught)
  /\ (PyStr.lower (PyStr.strip text) = "youtube" ->
      primary_unavailable cfg w (PyStr.strip (query req)) ->
      forall k data,
        configured (SERPAPI_API_KEY cfg) = Some k ->
        serpapi w (youtube_params (PyStr.strip (query req)) k) = inr data ->
        Py.dict_get data "video_results" (JList []) = JList items ->
        Exists (fun v => forall r, serpapi_youtube_result coerce_str v <> Return r)
               (firstn 5 items) ->
        fst (search coerce_str cfg req w) = Raise Uncaught)
  /\ (PyStr.lower (PyStr.strip text) = "youtube" ->
      forall key resp,
        configured (YOUTUBE_API_KEY cfg) = Some key ->
        youtube_data w key (PyStr.strip (query req)) = inr resp ->
        Py.dict_get resp "items" (JList []) = JList items ->
        Exists (fun v => forall r, youtube_data_result coerce_str v <> Return r)
               items ->
        fst (search coerce_str cfg req w) = Raise Uncaught).
Proof.
  intros Hq Hg. repeat split.
  - intros Hl k data Hk Hd Hv Hbad.
    rewrite (search_of_path cfg req w _ _ Hq
               (path_google_results coerce_str cfg _ w text k data
                  Hg Hl Hk Hd)).
    rewrite Hv. unfold sliced_results. cbn [fst Py.iter_slice5 obind].
    rewrite (comprehension_Exists _ _ google_videos_result_raises Hbad).
    reflexivity.
  - intros Hl Hu k data Hk Hd Hv Hbad.
    rewrite (search_of_path cfg req w _ _ Hq
               (path_fallback_results coerce_str cfg _ w text k data
                  Hg Hl Hu Hk Hd)).
    rewrite Hv. unfold sliced_results. cbn [fst Py.iter_slice5 obind].
    rewrite (comprehension_Exists _ _ serpapi_youtube_result_raises Hbad).
    reflexivity.
  - intros Hl key resp Hk Hr Hv Hbad.
    assert (Ht : Py.truthy (Py.dict_get resp "items" (JList [])) = true).
    { rewrite Hv. destruct Hbad; reflexivity. }
    rewrite (search_of_path cfg req w _ _ Hq
               (path_youtube_data coerce_str cfg _ w text key resp
                  Hg Hl Hk Hr Ht)).
    rewrite Hv. unfold all_results. cbn [fst Py.iter obind].
    rewrite (comprehension_Exists _ _ youtube_data_result_raises Hbad).
    reflexivity.
Qed.

(** *** Keys *)

(** X10. Each branch reads only the key it needs. On the Google Videos
    branch the run is the same under any two configurations with the same
    SerpAPI key. On the YouTube branch, when the YouTube Data API returns
    items, the run is the same under any two configurations with the same
    YouTube key, and its calls are Gemini's and the YouTube Data API's:
    SerpAPI is not called and its key is not needed. *)
Theorem each_branch_reads_its_own_key cfg cfg' req w text :
  PyStr.strip (query req) <> "" ->
  gemini w (prompt (PyStr.strip (query req))) = inr text ->
  (PyStr.lower (PyStr.strip text) = "google" ->
   SERPAPI_API_KEY cfg' = SERPAPI_API_KEY cfg ->
   search coerce_str cfg' req w = search coerce_str cfg req w)
  /\ (PyStr.lower (PyStr.strip text) = "youtube" ->
      YOUTUBE_API_KEY cfg' = YOUTUBE_API_KEY cfg ->
      forall key resp,
        configured (YOUTUBE_API_KEY cfg) = Some key ->
        youtube_data w key (PyStr.strip (query req)) = inr resp ->
        Py.truthy (Py.dict_get resp "items" (JList [])) = true ->
        search coerce_str cfg' req w = search coerce_str cfg req w
        /\ snd (search coerce_str cfg req w)
           = [GeminiGenerate (prompt (PyStr.strip (query req)));
              YouTubeSearchList key (PyStr.strip (query req))]).
Proof.
  intros Hq Hg. split.
  - intros Hl Hk.
    rewrite !(search_answered coerce_str _ req w text Hq Hg).
    rewrite !(interpret_google coerce_str _ _ _ Hl).
    unfold google_videos. rewrite Hk. reflexivity.
  - intros Hl Hy key resp Hk Hr Ht.
    assert (Hk' : configured (YOUTUBE_API_KEY cfg') = Some key)
      by (rewrite Hy; assumption).
    rewrite (search_of_path cfg' req w _ _ Hq
               (path_youtube_data coerce_str cfg' _ w text key resp
                  Hg Hl Hk' Hr Ht)).
    rewrite (search_of_path cfg req w _ _ Hq
               (path_youtube_data coerce_str cfg _ w text key resp
                  Hg Hl Hk Hr Ht)).
    split; reflexivity.
Qed.



(** *** Tokens and prompts *)

Lemma primary_unavailable_ext cfg w1 w2 q :
  (forall key q', youtube_data w1 key q' = youtube_data w2 key q') ->
  primary_unavailable cfg w1 q -> primary_unavailable cfg w2 q.
Proof.
  intros Hy. unfold primary_unavailable.
  destruct (configured (YOUTUBE_API_KEY cfg)); [|trivial].
  rewrite <- Hy. trivial.
Qed.

Lemma routed_path_transfer cfg q w1 w2 t1 t2 o t :
  gemini w1 (prompt q) = inr t1 ->
  gemini w2 (prompt q) = inr t2 ->
  (forall ps, serpapi w1 ps = serpapi w2 ps) ->
  (forall key q', youtube_data w1 key q' = youtube_data w2 key q') ->
  PyStr.lower (PyStr.strip t1) = PyStr.lower (PyStr.strip t2) ->
  PyStr.lower (PyStr.strip t1) = "google"
  \/ PyStr.lower (PyStr.strip t1) = "youtube" ->
  answered_path coerce_str cfg q w1 o t ->
  answered_path coerce_str cfg q w2 o t.
Proof.
  intros Hg1 Hg2 Hs Hy Heq Htok Hp.
  destruct Hp as [e Hg | text Hg Hne Hng Hny | text Hg He
                 | text Hg Hl Hk | text k e Hg Hl Hk Hd | text k data Hg Hl Hk Hd
                 | text Hg Hl Hp Hk | text k e Hg Hl Hp Hk Hd
                 | text k data Hg Hl Hp Hk Hd | text key resp Hg Hl Hk Hr Ht];
    rewrite Hg1 in Hg; try discriminate; injection Hg as <-;
    try rewrite Heq in Hl;
    try (apply (primary_unavailable_ext cfg w1 w2 q Hy) in Hp);
    try rewrite Hs in Hd; try rewrite Hy in Hr.
  - destruct Htok; contradiction.
  - rewrite He in Htok. destruct Htok; discriminate.
  - eapply path_google_no_key; eassumption.
  - eapply path_google_error; eassumption.
  - eapply path_google_results; eassumption.
  - eapply path_youtube_no_key; eassumption.
  - eapply path_fallback_error; eassumption.
  - eapply path_fallback_results; eassumption.
  - eapply path_youtube_data; eassumption.
Qed.

(** X12. A token is read without regard to case or surrounding white
    space: when Gemini's answer is "google" or "youtube" once stripped and
    lower-cased, any other answer with the same stripped, lower-cased form
    ("YouTube", " youtube ", "YOUTUBE") leads, with the same services, to
    the same outcome after the same calls. *)
Theorem token_case_and_padding_ignored cfg req w1 w2 t1 t2 :
  PyStr.strip (query req) <> "" ->
  gemini w1 (prompt (PyStr.strip (query req))) = inr t1 ->
  gemini w2 (prompt (PyStr.strip (query req))) = inr t2 ->
  (forall ps, serpapi w1 ps = serpapi w2 ps) ->
  (forall key q', youtube_data w1 key q' = youtube_data w2 key q') ->
  PyStr.lower (PyStr.strip t1) = PyStr.lower (PyStr.strip t2) ->
  PyStr.lower (PyStr.strip t1) = "google"
  \/ PyStr.lower (PyStr.strip t1) = "youtube" ->
  search coerce_str cfg req w1 = search coerce_str cfg req w2.
Proof.
  intros Hq Hg1 Hg2 Hs Hy Heq Htok.
  destruct (search_paths cfg req w1) as [[Hq' E]|[_ (o & t & Hp & E)]];
    [contradiction|].
  rewrite E. symmetry. apply search_of_path; [assumption|].
  exact (routed_path_transfer cfg _ w1 w2 t1 t2 o t Hg1 Hg2 Hs Hy Heq Htok Hp).
Qed.

Lemma append_length (a b : string) :
  String.length (a ++ b) = String.length a + String.length b.
Proof. induction a as [|c a IH]; simpl; [reflexivity|]. rewrite IH. reflexivity. Qed.

Lemma append_cancel_l (a x y : string) : a ++ x = a ++ y -> x = y.
Proof.
  induction a as [|c a IH]; simpl; [trivial|].
  intros H. injection H as H. auto.
Qed.

Lemma append_cancel_r (a x y : string) : x ++ a = y ++ a -> x = y.
Proof.
  revert y. induction x as [|c x IH]; intros [|d y]; simpl; intros H.
  - reflexivity.
  - apply (f_equal String.length) in H. simpl in H.
    rewrite append_length in H. lia.
  - apply (f_equal String.length) in H. simpl in H.
    rewrite append_length in H. lia.
  - injection H as -> H. f_equal. auto.
Qed.

(** X13. The prompt holds the query as it is, between the same fixed
    texts: two queries with the same prompt are the same query, so no two
    different queries are put to Gemini in the same words. *)
Theorem prompt_tells_the_query q1 q2 : prompt q1 = prompt q2 -> q1 = q2.
Proof.
  unfold prompt. intros H.
  do 3 apply append_cancel_l in H.
  apply append_cancel_r in H. assumption.
Qed.


(** *** Records *)

Lemma VideoResult_init_fields t l d c n r :
  VideoResult_init coerce_str t l d c n = Return r ->
  validate_str coerce_str t = Return (title r)
  /\ validate_str coerce_str l = Return (link r)
  /\ validate_optional_str coerce_str d = Return (description r)
  /\ validate_optional_str coerce_str c = Return (channel r)
  /\ validate_optional_str coerce_str n = Return (views r).
Proof.
  unfold VideoResult_init. intros H.
  destruct (validate_str coerce_str t); simpl in H; [|discriminate].
  destruct (validate_str coerce_str l); simpl in H; [|discriminate].
  destruct (validate_optional_str coerce_str d); simpl in H; [|discriminate].
  destruct (validate_optional_str coerce_str c); simpl in H; [|discriminate].
  destruct (validate_optional_str coerce_str n); simpl in H; [|discriminate].
  injection H as <-. auto.
Qed.

Lemma serpapi_youtube_result_description v r :
  serpapi_youtube_result coerce_str v = Return r -> description r = None.
Proof.
  unfold serpapi_youtube_result. intros H.
  destruct (Py.get v "title" (JStr "")); simpl in H; [|discriminate].
  destruct (Py.get v "link" (JStr "")); simpl in H; [|discriminate].
  destruct (channel_of v); simpl in H; [|discriminate].
  destruct (Py.get v "views" JNull); simpl in H; [|discriminate].
  apply VideoResult_init_fields in H. destruct H as (_ & _ & Hd & _).
  simpl in Hd. congruence.
Qed.

Lemma youtube_data_result_fields v r :
  youtube_data_result coerce_str v = Return r ->
  description r = None /\ views r = None
  /\ exists id videoId,
       Py.getitem v "id" = Return id
       /\ Py.getitem id "videoId" = Return videoId
       /\ link r = "https://youtu.be/" ++ Py.str videoId.
Proof.
  unfold youtube_data_result. intros H.
  destruct (Py.getitem v "snippet") as [s|]; simpl in H; [|discriminate].
  destruct (Py.getitem s "title"); simpl in H; [|discriminate].
  destruct (Py.getitem v "id") as [id|]; simpl in H; [|discriminate].
  destruct (Py.getitem id "videoId") as [vid|] eqn:Ev; simpl in H;
    [|discriminate].
  destruct (Py.getitem s "channelTitle"); simpl in H; [|discriminate].
  apply VideoResult_init_fields in H.
  destruct H as (_ & Hl & Hd & _ & Hn).
  cbn [validate_str validate_optional_str] in Hl, Hd, Hn.
  repeat split; try congruence.
  exists id, vid. repeat split; try assumption.
  injection Hl as <-. reflexivity.
Qed.

Lemma comprehension_Forall {A B} (f : A -> outcome B) (P : B -> Prop) l rs :
  (forall x y, f x = Return y -> P y) ->
  comprehension f l = Return rs -> Forall P rs.
Proof.
  intros Hf H. apply comprehension_Forall2 in H.
  induction H; constructor; eauto.
Qed.

(** X14. A response with the source "youtube" never carries a
    description: each of its records has none, whether it comes from the
    YouTube Data API or from the SerpAPI fallback (whose items may well
    hold one). *)
Theorem youtube_records_have_no_description cfg req w r :
  fst (search coerce_str cfg req w) = Return r ->
  source r = "youtube" ->
  exists rs, results r = Some rs /\ Forall (fun v => description v = None) rs.
Proof.
  intros H Hsrc.
  destruct (search_paths cfg req w) as [[Hq E]|[Hq (o & t & Hp & E)]];
    rewrite E in H; cbn [fst] in H; [discriminate|].
  destruct (returned_path cfg _ w o t r Hp H)
    as [(text & _ & _ & _ & _ & -> & _)
       |[(text & k & data & rs & _ & _ & _ & _ & Hs & -> & _)
        |[(text & k & data & rs & _ & _ & _ & _ & _ & Hs & -> & _)
         |(text & key & resp & rs & _ & _ & _ & _ & _ & Hs & -> & _)]]];
    try discriminate; exists rs; (split; [reflexivity|]).
  - unfold sliced_results in Hs.
    destruct (Py.iter_slice5 _); cbn [obind] in Hs; [|discriminate].
    exact (comprehension_Forall _ _ _ _ serpapi_youtube_result_description Hs).
  - unfold all_results in Hs.
    destruct (Py.iter _); cbn [obind] in Hs; [|discriminate].
    refine (comprehension_Forall _ _ _ _ _ Hs).
    intros x y Hxy. exact (proj1 (youtube_data_result_fields x y Hxy)).
Qed.

(** X15. What a SerpAPI item lacks is filled in, not refused. An item
    without "channel" whose other fields, where present, are strings gives
    a record on the Google Videos branch and in the fallback: a missing
    "title" or "link" is the empty string, a missing "description", "views"
    or "channel_name" is None, and the fallback never reads "description".
    Whatever record a SerpAPI item gives has these defaults. A "title" or
    "link" that is present but is not accepted as a str (None, or a value
    the installed pydantic does not coerce) fails the item. An item of the
    YouTube Data API yields no record without its "snippet" or its "id". *)
Theorem missing_fields_of_an_item d :
  (forall t l de cn vw : option string,
      Py.lookup d "title" = option_map JStr t ->
      Py.lookup d "link" = option_map JStr l ->
      Py.lookup d "description" = option_map JStr de ->
      Py.lookup d "channel" = None ->
      Py.lookup d "channel_name" = option_map JStr cn ->
      Py.lookup d "views" = option_map JStr vw ->
      google_videos_result coerce_str (JDict d)
      = Return {| title := match t with Some x => x | None => "" end;
                  link := match l with Some x => x | None => "" end;
                  description := de; channel := cn; views := vw |})
  /\ (forall t l cn vw : option string,
      Py.lookup d "title" = option_map JStr t ->
      Py.lookup d "link" = option_map JStr l ->
      Py.lookup d "channel" = None ->
      Py.lookup d "channel_name" = option_map JStr cn ->
      Py.lookup d "views" = option_map JStr vw ->
      serpapi_youtube_result coerce_str (JDict d)
      = Return {| title := match t with Some x => x | None => "" end;
                  link := match l with Some x => x | None => "" end;
                  description := None; channel := cn; views := vw |})
  /\ (forall r,
      google_videos_result coerce_str (JDict d) = Return r
      \/ serpapi_youtube_result coerce_str (JDict d) = Return r ->
      (Py.lookup d "title" = None -> title r = "")
      /\ (Py.lookup d "link" = None -> link r = "")
      /\ (Py.lookup d "views" = None -> views r = None)
      /\ (Py.lookup d "channel" = None -> Py.lookup d "channel_name" = None ->
          channel r = None))
  /\ (forall v,
      Py.lookup d "title" = Some v \/ Py.lookup d "link" = Some v ->
      validate_str coerce_str v = Raise Uncaught ->
      google_videos_result coerce_str (JDict d) = Raise Uncaught
      /\ serpapi_youtube_result coerce_str (JDict d) = Raise Uncaught)
  /\ (Py.lookup d "snippet" = None \/ Py.lookup d "id" = None ->
      youtube_data_result coerce_str (JDict d) = Raise Uncaught).
Proof.
  split; [|split; [|split; [|split]]].
  - intros t l de cn vw Ht Hl Hd Hc Hn Hv.
    unfold google_videos_result, channel_of. cbn [Py.get obind].
    unfold Py.dict_get. rewrite Ht, Hl, Hd, Hc, Hn, Hv.
    destruct t, l, de, cn, vw; reflexivity.
  - intros t l cn vw Ht Hl Hc Hn Hv.
    unfold serpapi_youtube_result, channel_of. cbn [Py.get obind].
    unfold Py.dict_get. rewrite Ht, Hl, Hc, Hn, Hv.
    destruct t, l, cn, vw; reflexivity.
  - intros r H.
    assert (Hf : exists dv cv,
               channel_of (JDict d) = Return cv
               /\ VideoResult_init coerce_str
                    (Py.dict_get d "title" (JStr ""))
                    (Py.dict_get d "link" (JStr ""))
                    dv cv (Py.dict_get d "views" JNull) = Return r).
    { destruct H as [H|H];
        [unfold google_videos_result in H|unfold serpapi_youtube_result in H];
        cbn [Py.get obind] in H;
        destruct (channel_of (JDict d)) as [cv|]; cbn [obind] in H;
        try discriminate; eauto. }
    destruct Hf as (dv & cv & Hc & Hi).
    apply VideoResult_init_fields in Hi.
    destruct Hi as (Ht & Hl & _ & Hch & Hn).
    unfold Py.dict_get in *. repeat split.
    + intros E. rewrite E in Ht. simpl in Ht. congruence.
    + intros E. rewrite E in Hl. simpl in Hl. congruence.
    + intros E. rewrite E in Hn. simpl in Hn. congruence.
    + intros E1 E2. unfold channel_of in Hc. cbn [Py.get obind] in Hc.
      unfold Py.dict_get in Hc. rewrite E1, E2 in Hc. simpl in Hc.
      injection Hc as <-. simpl in Hch. congruence.
  - intros v Hv Hr.
    assert (Hi : forall de ch vw,
               VideoResult_init coerce_str
                 (Py.dict_get d "title" (JStr "")) (Py.dict_get d "link" (JStr ""))
                 de ch vw = Raise Uncaught).
    { intros de ch vw. unfold VideoResult_init, Py.dict_get.
      destruct Hv as [E|E]; rewrite E.
      - rewrite Hr. reflexivity.
      - rewrite Hr.
        match goal with
        | |- context [validate_str coerce_str ?a] =>
            destruct (validate_str coerce_str a) as [x|e] eqn:Ex
        end; cbn [obind]; [reflexivity|].
        f_equal. revert Ex. unfold validate_str.
        repeat match goal with
               | |- context [match ?x with _ => _ end] => destruct x
               end; congruence. }
    assert (Hc : forall k : json -> outcome VideoResult,
               (forall ch, k ch = Raise Uncaught) ->
               obind (channel_of (JDict d)) k = Raise Uncaught).
    { intros k Hk. destruct (channel_of (JDict d)) as [ch|[]] eqn:Ec;
        cbn [obind]; [apply Hk| |reflexivity].
      exfalso. revert Ec. unfold channel_of. cbn [Py.get obind].
      destruct (Py.dict_get d "channel" (JDict [])); cbn [Py.get obind];
        try discriminate.
      destruct (Py.truthy _); discriminate. }
    split.
    + unfold google_videos_result. cbn [Py.get obind]. apply Hc.
      intros ch. apply Hi.
    + unfold serpapi_youtube_result. cbn [Py.get obind]. apply Hc.
      intros ch. apply Hi.
  - intros [E|E]; unfold youtube_data_result; cbn [Py.getitem].
    + rewrite E. reflexivity.
    + destruct (Py.lookup d "snippet") as [s|]; [|reflexivity].
      cbn [obind]. destruct (Py.getitem s "title") as [x|e] eqn:Et;
        cbn [obind]; [|rewrite (getitem_raises _ _ _ Et); reflexivity].
      rewrite E. reflexivity.
Qed.


End Paths.

(** *** The version of pydantic *)

Section Pydantic.

Context {U : Unicode}.

Lemma validate_str_accepted c v s :
  validate_str pydantic2 v = Return s -> validate_str c v = Return s.
Proof. destruct v; simpl; congruence. Qed.

Lemma validate_optional_str_accepted c v s :
  validate_optional_str pydantic2 v = Return s ->
  validate_optional_str c v = Return s.
Proof. destruct v; simpl; congruence. Qed.

Lemma VideoResult_init_accepted c t l d ch n r :
  VideoResult_init pydantic2 t l d ch n = Return r ->
  VideoResult_init c t l d ch n = Return r.
Proof.
  unfold VideoResult_init. intros H.
  destruct (validate_str pydantic2 t) eqn:E1; cbn [obind] in H; [|discriminate].
  destruct (validate_str pydantic2 l) eqn:E2; cbn [obind] in H; [|discriminate].
  destruct (validate_optional_str pydantic2 d) eqn:E3; cbn [obind] in H;
    [|discriminate].
  destruct (validate_optional_str pydantic2 ch) eqn:E4; cbn [obind] in H;
    [|discriminate].
  destruct (validate_optional_str pydantic2 n) eqn:E5; cbn [obind] in H;
    [|discriminate].
  rewrite (validate_str_accepted c _ _ E1), (validate_str_accepted c _ _ E2),
    (validate_optional_str_accepted c _ _ E3),
    (validate_optional_str_accepted c _ _ E4),
    (validate_optional_str_accepted c _ _ E5).
  assumption.
Qed.

Ltac accepted_step H :=
  match type of H with
  | obind ?o _ = Return _ =>
      destruct o; cbn [obind] in H |- *; [|discriminate]
  end.

Lemma google_videos_result_accepted c v r :
  google_videos_result pydantic2 v = Return r ->
  google_videos_result c v = Return r.
Proof.
  unfold google_videos_result. intros H. repeat accepted_step H.
  cbn [obind]. apply VideoResult_init_accepted. assumption.
Qed.

Lemma serpapi_youtube_result_accepted c v r :
  serpapi_youtube_result pydantic2 v = Return r ->
  serpapi_youtube_result c v = Return r.
Proof.
  unfold serpapi_youtube_result. intros H. repeat accepted_step H.
  cbn [obind]. apply VideoResult_init_accepted. assumption.
Qed.

Lemma youtube_data_result_accepted c v r :
  youtube_data_result pydantic2 v = Return r ->
  youtube_data_result c v = Return r.
Proof.
  unfold youtube_data_result. intros H. repeat accepted_step H.
  cbn [obind]. apply VideoResult_init_accepted. assumption.
Qed.

Lemma comprehension_accepted {A B} (f g : A -> outcome B) l rs :
  (forall x y, f x = Return y -> g x = Return y) ->
  comprehension f l = Return rs -> comprehension g l = Return rs.
Proof.
  intros Hfg H. apply comprehension_Forall2. apply comprehension_Forall2 in H.
  induction H; constructor; auto.
Qed.

Lemma results_accepted {A B} (f g : A -> outcome B) (o : outcome (list A))
      (h : list B -> SearchResponse) :
  (forall x y, f x = Return y -> g x = Return y) ->
  (forall x e, f x = Raise e -> e = Uncaught) ->
  map_outcome h (vs <~ o ;; comprehension f vs) <> Raise Uncaught ->
  (forall e, o = Raise e -> e = Uncaught) ->
  map_outcome h (vs <~ o ;; comprehension g vs)
  = map_outcome h (vs <~ o ;; comprehension f vs).
Proof.
  intros Hfg Hf Hne Ho. destruct o as [vs|e]; cbn [obind] in *.
  - destruct (comprehension f vs) as [rs|e] eqn:E.
    + rewrite (comprehension_accepted f g vs rs Hfg E). reflexivity.
    + apply comprehension_raises in E. destruct E as (x & _ & Hx).
      rewrite (Hf x e Hx) in Hne. destruct Hne. reflexivity.
  - reflexivity.
Qed.

Lemma path_accepted c cfg q w o t :
  answered_path pydantic2 cfg q w o t ->
  o <> Raise Uncaught ->
  answered_path c cfg q w o t.
Proof.
  intros Hp Hne.
  destruct Hp as [e Hg | text Hg Hne' Hng Hny | text Hg He
                 | text Hg Hl Hk | text k e Hg Hl Hk Hd | text k data Hg Hl Hk Hd
                 | text Hg Hl Hp Hk | text k e Hg Hl Hp Hk Hd
                 | text k data Hg Hl Hp Hk Hd | text key resp Hg Hl Hk Hr Ht].
  - apply path_gemini_error. assumption.
  - apply path_direct_answer; assumption.
  - apply path_blank_answer with text; assumption.
  - eapply path_google_no_key; eassumption.
  - eapply path_google_error; eassumption.
  - unfold sliced_results in *.
    rewrite <- (results_accepted (google_videos_result pydantic2)
                  (google_videos_result c) _ google_videos_response
                  (google_videos_result_accepted c)
                  (google_videos_result_raises pydantic2) Hne).
    + eapply path_google_results; eassumption.
    + intros e. destruct (Py.dict_get data "video_results" (JList []));
        simpl; congruence.
  - eapply path_youtube_no_key; eassumption.
  - eapply path_fallback_error; eassumption.
  - unfold sliced_results in *.
    rewrite <- (results_accepted (serpapi_youtube_result pydantic2)
                  (serpapi_youtube_result c) _ youtube_response
                  (serpapi_youtube_result_accepted c)
                  (serpapi_youtube_result_raises pydantic2) Hne).
    + eapply path_fallback_results; eassumption.
    + intros e. destruct (Py.dict_get data "video_results" (JList []));
        simpl; congruence.
  - unfold all_results in *.
    rewrite <- (results_accepted (youtube_data_result pydantic2)
                  (youtube_data_result c) _ youtube_response
                  (youtube_data_result_accepted c)
                  (youtube_data_result_raises pydantic2) Hne).
    + eapply path_youtube_data; eassumption.
    + intros e. destruct (Py.dict_get resp "items" (JList []));
        simpl; congruence.
Qed.

(** X16. The handler does not depend on the major version of pydantic
    unless a value is refused: whenever the run under pydantic 2 ends in a
    response or in an [HTTPException], the run under pydantic 1 (indeed
    under any treatment of values that are neither str nor None) ends in
    the same outcome after the same calls. *)
Theorem served_alike_by_any_pydantic c cfg req w :
  fst (search pydantic2 cfg req w) <> Raise Uncaught ->
  search c cfg req w = search pydantic2 cfg req w.
Proof.
  intros Hne.
  destruct (search_paths pydantic2 cfg req w)
    as [[Hq E]|[Hq (o & t & Hp & E)]].
  - rewrite E. unfold search. rewrite Hq. reflexivity.
  - rewrite E in *. cbn [fst] in Hne. apply search_of_path; [assumption|].
    apply path_accepted; assumption.
Qed.

End Pydantic.

(** ** Properties of the command-line trial *)

Section Trial.

Context {U : Unicode}.

Lemma cli_bind_run {A B} (m : Cli.C A) (k : A -> Cli.C B) (w : World) :
  Cli.bind m k w =
  match m w with
  | (Return a, t) => (fst (k a w), (t ++ snd (k a w))%list)
  | (Raise e, t) => (Raise e, t)
  end.
Proof.
  unfold Cli.bind. destruct (m w) as [[a|e] t]; [destruct (k a w)|]; reflexivity.
Qed.

Lemma calls_app (t t' : list Cli.event) :
  Cli.calls (t ++ t') = (Cli.calls t ++ Cli.calls t')%list.
Proof.
  induction t as [|[s|s|c] t IH]; simpl; congruence.
Qed.

Lemma prompts_app (t t' : list Cli.event) :
  Cli.prompts (t ++ t') = Cli.prompts t + Cli.prompts t'.
Proof.
  induction t as [|[s|s|c] t IH]; simpl; congruence.
Qed.

Lemma quiet_ret {A} (a : A) : Cli.quiet (Cli.ret a).
Proof. intros w. reflexivity. Qed.

Lemma quiet_lift {A} (o : outcome A) : Cli.quiet (Cli.lift o).
Proof. intros w. reflexivity. Qed.

Lemma quiet_print s : Cli.quiet (Cli.print s).
Proof. intros w. reflexivity. Qed.

Lemma quiet_bind {A B} (m : Cli.C A) (k : A -> Cli.C B) :
  Cli.quiet m -> (forall a, Cli.quiet (k a)) -> Cli.quiet (Cli.bind m k).
Proof.
  intros Hm Hk w. rewrite cli_bind_run. specialize (Hm w).
  destruct (m w) as [[a|e] t]; cbn [snd] in *; [|assumption].
  rewrite calls_app, Hm, (Hk a w). reflexivity.
Qed.

Lemma quiet_for_each {A} (body : nat -> A -> Cli.C unit) i l :
  (forall i x, Cli.quiet (body i x)) -> Cli.quiet (Cli.for_each body i l).
Proof.
  intros Hb. revert i. induction l as [|x l IH]; intros i; cbn [Cli.for_each].
  - apply quiet_ret.
  - apply quiet_bind; [apply Hb|]. intros _. apply IH.
Qed.

Ltac quiet_step :=
  first
    [ apply quiet_ret | apply quiet_lift | apply quiet_print
    | apply quiet_bind
    | match goal with
      | |- forall _, _ => intro
      | |- Cli.quiet (match ?x with _ => _ end) => destruct x
      end ].

Lemma quiet_print_google_result i vid :
  Cli.quiet (Cli.print_google_result i vid).
Proof. unfold Cli.print_google_result. repeat quiet_step. Qed.

Lemma quiet_print_youtube_item i it :
  Cli.quiet (Cli.print_youtube_item i it).
Proof. unfold Cli.print_youtube_item. repeat quiet_step. Qed.

Lemma quiet_print_serpapi_video i vid :
  Cli.quiet (Cli.print_serpapi_video i vid).
Proof. unfold Cli.print_serpapi_video. cbv zeta. repeat quiet_step. Qed.

(** *** The calls of the trial and of the API *)

Lemma google_branch_calls c env q w :
  Cli.serpapi_installed env = true ->
  Cli.calls (snd (Cli.google_branch env q w))
  = snd (google_videos c (Cli.keys env) q w).
Proof.
  intros Hs. unfold Cli.google_branch, google_videos.
  destruct (configured (SERPAPI_API_KEY (Cli.keys env))) as [k|];
    [|reflexivity].
  rewrite Hs. cbn [negb]. rewrite !cli_bind_run, bind_run.
  unfold Cli.print, Cli.try_get_dict, try_get_dict. cbn [fst snd app].
  cbn [Cli.calls]. f_equal.
  destruct (serpapi w _) as [e|data]; [reflexivity|].
  transitivity (@nil call).
  - destruct (negb (Py.truthy _)); [reflexivity|].
    apply (quiet_bind _ _ (quiet_lift _)).
    intros vs. apply quiet_for_each. apply quiet_print_google_result.
  - rewrite bind_run. unfold lift.
    destruct (obind _ _); reflexivity.
Qed.

Lemma serpapi_youtube_calls_agree c env q w :
  Cli.serpapi_installed env = true ->
  Cli.calls (snd (Cli.serpapi_youtube env q w))
  = snd (serpapi_youtube c (Cli.keys env) q w).
Proof.
  intros Hs. unfold Cli.serpapi_youtube, serpapi_youtube.
  destruct (configured (SERPAPI_API_KEY (Cli.keys env))) as [k|];
    [|reflexivity].
  rewrite Hs. cbn [negb]. rewrite !cli_bind_run, bind_run.
  unfold Cli.print, Cli.try_get_dict, try_get_dict. cbn [fst snd app].
  cbn [Cli.calls]. f_equal.
  destruct (serpapi w _) as [e|data]; [reflexivity|].
  transitivity (@nil call).
  - destruct (negb (Py.truthy _)); [reflexivity|].
    apply (quiet_bind _ _ (quiet_print _)). intros _.
    apply (quiet_bind _ _ (quiet_lift _)).
    intros vs. apply quiet_for_each. apply quiet_print_serpapi_video.
  - unfold lift. reflexivity.
Qed.

Lemma show_youtube_items_run items w :
  Cli.calls (snd (Cli.show_youtube_items items w)) = []
  /\ match fst (Cli.show_youtube_items items w) with
     | Return shown => shown = Py.truthy items
     | Raise _ => Py.truthy items = true
     end.
Proof.
  unfold Cli.show_youtube_items.
  destruct (Py.truthy items); [|split; reflexivity].
  split.
  - apply (quiet_bind _ _ (quiet_print _)). intros _.
    apply (quiet_bind _ _ (quiet_lift _)). intros its.
    apply quiet_bind; [|intros; apply quiet_ret].
    apply quiet_for_each. apply quiet_print_youtube_item.
  - rewrite cli_bind_run. unfold Cli.print. cbn [fst snd].
    rewrite cli_bind_run. unfold Cli.lift.
    destruct (Py.iter items) as [its|e]; cbn [fst snd]; [|reflexivity].
    rewrite cli_bind_run.
    destruct (Cli.for_each Cli.print_youtube_item 1 its w) as [[[]|e] t1];
      reflexivity.
Qed.

Lemma youtube_data_attempt_run env q w :
  Cli.googleapiclient_installed env = true ->
  exists items,
    youtube_data_items (Cli.keys env) q w
    = (Return items, youtube_attempt (Cli.keys env) q)
    /\ Cli.calls (snd (Cli.youtube_data_attempt env q w))
       = youtube_attempt (Cli.keys env) q
    /\ match fst (Cli.youtube_data_attempt env q w) with
       | Return shown => shown = Py.truthy items
       | Raise _ => Py.truthy items = true
       end.
Proof.
  intros Hg.
  unfold Cli.youtube_data_attempt, youtube_data_items, youtube_attempt.
  destruct (configured (YOUTUBE_API_KEY (Cli.keys env))) as [key|].
  - rewrite Hg. cbn [negb]. rewrite cli_bind_run, bind_run.
    unfold Cli.youtube_data_items. rewrite cli_bind_run.
    unfold Cli.try_youtube_search, try_youtube_search, ret. cbn [fst snd app].
    destruct (youtube_data w key q) as [e|resp].
    + exists (JList []). split; [reflexivity|].
      rewrite cli_bind_run. unfold Cli.print, Cli.ret. cbn [fst snd app].
      destruct (show_youtube_items_run (JList []) w) as [Hc Hf].
      split; [|assumption].
      cbn [Cli.calls]. rewrite Hc. reflexivity.
    + exists (Py.dict_get resp "items" (JList [])). split; [reflexivity|].
      unfold Cli.ret. cbn [fst snd app].
      destruct (show_youtube_items_run (Py.dict_get resp "items" (JList [])) w)
        as [Hc Hf].
      split; [|assumption].
      cbn [Cli.calls]. rewrite Hc. reflexivity.
  - exists (JList []). repeat split.
Qed.

Lemma youtube_branch_calls c env q w :
  Cli.googleapiclient_installed env = true ->
  Cli.serpapi_installed env = true ->
  Cli.calls (snd (Cli.youtube_branch env q w))
  = snd (youtube c (Cli.keys env) q w).
Proof.
  intros Hg Hs.
  destruct (youtube_data_attempt_run env q w Hg) as (items & Hi & Hc & Hf).
  rewrite (youtube_run c (Cli.keys env) q w items _ Hi).
  unfold Cli.youtube_branch. rewrite cli_bind_run.
  destruct (Cli.youtube_data_attempt env q w) as [[shown|e] t];
    cbn [fst snd] in *.
  - subst shown. rewrite calls_app, Hc.
    destruct (Py.truthy items); cbn [negb snd].
    + apply app_nil_r.
    + rewrite (serpapi_youtube_calls_agree c env q w Hs). reflexivity.
  - rewrite Hf. cbn [negb snd]. assumption.
Qed.

Lemma cli_interpret_cases out :
  (out <> "" /\ PyStr.lower out <> "google" /\ PyStr.lower out <> "youtube"
   /\ Cli.interpret out = (None, Some out))
  \/ (PyStr.lower out = "google"
      /\ Cli.interpret out = (Some "GOOGLE", None))
  \/ (PyStr.lower out = "youtube"
      /\ Cli.interpret out = (Some "YOUTUBE", None))
  \/ (out = "" /\ Cli.interpret out = (None, None)).
Proof.
  unfold Cli.interpret.
  destruct (String.eqb_spec (PyStr.lower out) "google") as [Hg|Hg]; [auto|].
  destruct (String.eqb_spec (PyStr.lower out) "youtube") as [Hy|Hy]; [auto|].
  destruct out as [|a out']; cbn [PyStr.nonempty]; [auto 6|].
  left. repeat split; try assumption. discriminate.
Qed.

Lemma act_calls c env q out w :
  Cli.googleapiclient_installed env = true ->
  Cli.serpapi_installed env = true ->
  Cli.calls
    (snd ((let (decision, answer) := Cli.interpret out in
           Cli.act env q decision answer) w))
  = snd (interpret c (Cli.keys env) q out w).
Proof.
  intros Hg Hs.
  destruct (cli_interpret_cases out)
    as [(Hne & Hng & Hny & E)|[(Hl & E)|[(Hl & E)|(He & E)]]]; rewrite E.
  - destruct (interpret_cases c (Cli.keys env) q out)
      as [(_ & _ & _ & E')|[(Hl & _)|[(Hl & _)|(He & _)]]];
      try contradiction.
    rewrite E'. unfold Cli.act. apply nonempty_true in Hne. rewrite Hne.
    reflexivity.
  - rewrite (interpret_google c _ _ _ Hl). unfold Cli.act. cbn [String.eqb].
    apply google_branch_calls. assumption.
  - rewrite (interpret_youtube c _ _ _ Hl). unfold Cli.act.
    apply youtube_branch_calls; assumption.
  - subst out. reflexivity.
Qed.

(** X17. The trial makes the calls the API makes: with the packages
    installed, one turn of the command-line loop on a query line calls the
    same services, with the same parameters and in the same order, as
    [search] of app.py does on that query under the same keys, whatever
    the services answer. *)
Theorem cli_makes_the_calls_of_the_api c env line w :
  Cli.googleapiclient_installed env = true ->
  Cli.serpapi_installed env = true ->
  PyStr.strip line <> "" ->
  Cli.calls (snd (Cli.turn env (PyStr.strip line) w))
  = snd (search c (Cli.keys env) {| query := line |} w).
Proof.
  intros Hg Hs Hq. set (q := PyStr.strip line).
  unfold Cli.turn, Cli.ask. rewrite !cli_bind_run.
  unfold Cli.try_generate_content. cbn [fst snd app].
  destruct (gemini w (prompt q)) as [e|text] eqn:Hgem.
  - rewrite (search_of_path c (Cli.keys env) {| query := line |} w _ _ Hq
               (path_gemini_error c _ _ w e Hgem)).
    reflexivity.
  - rewrite (search_answered c (Cli.keys env) {| query := line |} w text Hq Hgem).
    unfold Cli.ret. cbn [fst snd app Cli.calls query]. f_equal.
    apply act_calls; assumption.
Qed.


(** *** The answers of the trial and of the API *)

Lemma turn_answered env q w text :
  gemini w (prompt q) = inr text ->
  Cli.turn env q w
  = (fst ((let (decision, answer) := Cli.interpret (PyStr.strip text) in
           Cli.act env q decision answer) w),
     Cli.Call (GeminiGenerate (prompt q))
       :: snd ((let (decision, answer) := Cli.interpret (PyStr.strip text) in
                Cli.act env q decision answer) w)).
Proof.
  intros Hg. unfold Cli.turn, Cli.ask. rewrite !cli_bind_run.
  unfold Cli.try_generate_content. cbn [fst snd app]. rewrite Hg.
  reflexivity.
Qed.

Lemma turn_gemini_error env q w e :
  gemini w (prompt q) = inl e ->
  Cli.turn env q w
  = (Return tt,
     [Cli.Call (GeminiGenerate (prompt q));
      Cli.Print ("Error: Gemini API call failed: " ++ e);
      Cli.Print "⚠️ Unable to answer or determine search method. Please try rephrasing."]).
Proof.
  intros Hg. unfold Cli.turn, Cli.ask. rewrite !cli_bind_run.
  unfold Cli.try_generate_content. cbn [fst snd app]. rewrite Hg.
  reflexivity.
Qed.

Lemma cli_bind_events {A B} (m : Cli.C A) (k : A -> Cli.C B) (w : World) :
  exists rest, snd (Cli.bind m k w) = (snd (m w) ++ rest)%list.
Proof.
  rewrite cli_bind_run. destruct (m w) as [[a|e] t]; cbn [snd].
  - eexists. reflexivity.
  - exists []. symmetry. apply app_nil_r.
Qed.

Ltac split_events w :=
  match goal with
  | |- context [snd (Cli.bind ?m ?k w)] =>
      let r := fresh "r" in
      let E := fresh "E" in
      destruct (cli_bind_events m k w) as [r E]; rewrite E; clear E
  end.

(** The first thing a routed turn does is not the printing of an answer. *)
Lemma routed_turn_head env q w d :
  match snd (Cli.act env q (Some d) None w) with
  | Cli.Print s :: _ =>
      s <> PyStr.newline ++ "💡 Gemini Answer:" ++ PyStr.newline
  | _ => True
  end.
Proof.
  unfold Cli.act.
  destruct (String.eqb d "GOOGLE").
  - unfold Cli.google_branch.
    destruct (configured (SERPAPI_API_KEY (Cli.keys env))); [|discriminate].
    destruct (Cli.serpapi_installed env); cbn [negb]; [|discriminate].
    rewrite cli_bind_run. cbn. discriminate.
  - destruct (String.eqb d "YOUTUBE"); [|discriminate].
    unfold Cli.youtube_branch.
    destruct (configured (YOUTUBE_API_KEY (Cli.keys env))) as [key|] eqn:Hk.
    + split_events w. unfold Cli.youtube_data_attempt. rewrite Hk.
      destruct (Cli.googleapiclient_installed env); cbn [negb].
      * split_events w. unfold Cli.youtube_data_items. split_events w.
        cbn. exact I.
      * rewrite cli_bind_run. cbn. discriminate.
    + rewrite cli_bind_run. unfold Cli.youtube_data_attempt. rewrite Hk.
      cbn [Cli.ret fst snd app]. unfold Cli.serpapi_youtube.
      destruct (configured (SERPAPI_API_KEY (Cli.keys env))); [|discriminate].
      destruct (Cli.serpapi_installed env); cbn [negb]; [|discriminate].
      rewrite cli_bind_run. cbn. discriminate.
Qed.


(** X18. The trial shows an answer exactly when the API returns one: for
    a query line, [search] returns the response with source "gemini" and
    answer [a] if and only if the turn of the command-line loop calls
    Gemini, prints the heading of an answer and then [a], and does nothing
    else, whatever keys and packages are there. *)
Theorem cli_answers_what_the_api_answers c env line w a :
  PyStr.strip line <> "" ->
  fst (search c (Cli.keys env) {| query := line |} w)
  = Return (gemini_response a)
  <-> Cli.turn env (PyStr.strip line) w
      = (Return tt,
         [Cli.Call (GeminiGenerate (prompt (PyStr.strip line)));
          Cli.Print (PyStr.newline ++ "💡 Gemini Answer:" ++ PyStr.newline);
          Cli.Print a]).
Proof.
  intros Hq. set (q := PyStr.strip line). split.
  - intros H.
    destruct (search_paths c (Cli.keys env) {| query := line |} w)
      as [[Hq' E]|[_ (o & t & Hp & E)]]; [contradiction|].
    rewrite E in H. cbn [fst] in H.
    destruct (returned_path c _ _ w o t _ Hp H)
      as [(text & Hg & Hne & Hng & Hny & Hr & _)
         |[(text & k & data & rs & _ & _ & _ & _ & _ & Hr & _)
          |[(text & k & data & rs & _ & _ & _ & _ & _ & _ & Hr & _)
           |(text & key & resp & rs & _ & _ & _ & _ & _ & _ & Hr & _)]]];
      try discriminate.
    injection Hr as ->. cbn [query] in Hg. rewrite (turn_answered env q w text Hg).
    destruct (cli_interpret_cases (PyStr.strip text))
      as [(_ & _ & _ & E')|[(Hl & _)|[(Hl & _)|(He & _)]]];
      try contradiction.
    rewrite E'. unfold Cli.act. apply nonempty_true in Hne. rewrite Hne.
    reflexivity.
  - intros H.
    destruct (gemini w (prompt q)) as [e|text] eqn:Hg.
    + rewrite (turn_gemini_error env q w e Hg) in H. discriminate.
    + rewrite (turn_answered env q w text Hg) in H.
      destruct (cli_interpret_cases (PyStr.strip text))
        as [(Hne & Hng & Hny & E')|[(Hl & E')|[(Hl & E')|(He & E')]]];
        rewrite E' in H.
      * unfold Cli.act in H. pose proof Hne as Hne'.
        apply nonempty_true in Hne'. rewrite Hne' in H.
        injection H as H. subst a.
        rewrite (search_of_path c (Cli.keys env) {| query := line |} w _ _ Hq
                   (path_direct_answer c _ _ w text Hg Hne Hng Hny)).
        reflexivity.
      * pose proof (routed_turn_head env q w "GOOGLE") as Hh.
        assert (H' : snd (Cli.act env q (Some "GOOGLE") None w)
                     = [Cli.Print (PyStr.newline ++ "💡 Gemini Answer:"
                                   ++ PyStr.newline);
                        Cli.Print a])
          by (injection H as _ H; exact H).
        rewrite H' in Hh. destruct Hh. reflexivity.
      * pose proof (routed_turn_head env q w "YOUTUBE") as Hh.
        assert (H' : snd (Cli.act env q (Some "YOUTUBE") None w)
                     = [Cli.Print (PyStr.newline ++ "💡 Gemini Answer:"
                                   ++ PyStr.newline);
                        Cli.Print a])
          by (injection H as _ H; exact H).
        rewrite H' in Hh. destruct Hh. reflexivity.
      * discriminate.
Qed.

(** *** Failures and the end of a session *)

(** X19. The trial reports an upstream failure and goes on, where the API
    raises 502: when Gemini's call raises, the turn prints "Error: Gemini
    API call failed: e" and the request to rephrase; when SerpAPI raises
    on the Google Videos branch, or in the fallback of the YouTube branch,
    the turn ends normally with "Error: Google video search failed: e",
    or "Error: SerpAPI YouTube search failed: e", as its last line. *)
Theorem cli_reports_upstream_failures env q w :
  (forall e,
      gemini w (prompt q) = inl e ->
      Cli.turn env q w
      = (Return tt,
         [Cli.Call (GeminiGenerate (prompt q));
          Cli.Print ("Error: Gemini API call failed: " ++ e);
          Cli.Print "⚠️ Unable to answer or determine search method. Please try rephrasing."]))
  /\ (forall text k e,
         gemini w (prompt q) = inr text ->
         PyStr.lower (PyStr.strip text) = "google" ->
         configured (SERPAPI_API_KEY (Cli.keys env)) = Some k ->
         Cli.serpapi_installed env = true ->
         serpapi w (google_videos_params q k) = inl e ->
         fst (Cli.turn env q w) = Return tt
         /\ exists t,
              snd (Cli.turn env q w)
              = (t ++ [Cli.Print ("Error: Google video search failed: " ++ e)])%list)
  /\ (forall text k e,
         gemini w (prompt q) = inr text ->
         PyStr.lower (PyStr.strip text) = "youtube" ->
         primary_unavailable (Cli.keys env) w q ->
         Cli.googleapiclient_installed env = true ->
         configured (SERPAPI_API_KEY (Cli.keys env)) = Some k ->
         Cli.serpapi_installed env = true ->
         serpapi w (youtube_params q k) = inl e ->
         fst (Cli.turn env q w) = Return tt
         /\ exists t,
              snd (Cli.turn env q w)
              = (t ++ [Cli.Print ("Error: SerpAPI YouTube search failed: " ++ e)])%list).
Proof.
  split; [|split].
  - intros e Hg. apply turn_gemini_error. assumption.
  - intros text k e Hg Hl Hk Hs Hd.
    rewrite (turn_answered env q w text Hg).
    destruct (cli_interpret_cases (PyStr.strip text))
      as [(_ & Hng & _)|[(_ & E)|[(Hl' & _)|(He & _)]]];
      try contradiction; try congruence;
      [|rewrite He in Hl; discriminate].
    rewrite E. unfold Cli.act. cbn [String.eqb Ascii.eqb Bool.eqb].
    unfold Cli.google_branch. rewrite Hk, Hs. cbn [negb].
    rewrite !cli_bind_run. unfold Cli.print, Cli.try_get_dict.
    cbn [fst snd app]. fold (google_videos_params q k). rewrite Hd.
    cbn [fst snd app]. split; [reflexivity|].
    eexists [_; _; _]. reflexivity.
  - intros text k e Hg Hl Hu Hi Hk Hs Hd.
    rewrite (turn_answered env q w text Hg).
    destruct (cli_interpret_cases (PyStr.strip text))
      as [(_ & _ & Hny & _)|[(Hl' & _)|[(_ & E)|(He & _)]]];
      try contradiction; try congruence;
      [|rewrite He in Hl; discriminate].
    rewrite E. unfold Cli.act. cbn [String.eqb Ascii.eqb Bool.eqb].
    unfold Cli.youtube_branch. rewrite cli_bind_run.
    destruct (youtube_data_attempt_run env q w Hi) as (items & Hit & _ & Hf).
    destruct (youtube_data_items_run (Cli.keys env) q w) as (items' & Hit' & Hu' & _).
    rewrite Hit in Hit'. injection Hit' as <-.
    apply Hu' in Hu.
    destruct (Cli.youtube_data_attempt env q w) as [[shown|e'] t0];
      cbn [fst] in Hf; [|congruence].
    rewrite Hu in Hf. subst shown.
    unfold Cli.serpapi_youtube. rewrite Hk, Hs. cbn [negb].
    rewrite !cli_bind_run. unfold Cli.print, Cli.try_get_dict.
    cbn [fst snd app]. fold (youtube_params q k). rewrite Hd.
    cbn [fst snd app]. split; [reflexivity|].
    exists (Cli.Call (GeminiGenerate (prompt q))
              :: t0 ++ [Cli.Print (PyStr.newline ++ "🔎 Performing YouTube search via SerpAPI...");
                        Cli.Call (SerpApiSearch (youtube_params q k))])%list.
    cbn [app]. rewrite <- app_assoc. reflexivity.
Qed.


Lemma unprompted_ret {A} (a : A) : Cli.unprompted (Cli.ret a).
Proof. intros w. reflexivity. Qed.

Lemma unprompted_lift {A} (o : outcome A) : Cli.unprompted (Cli.lift o).
Proof. intros w. reflexivity. Qed.

Lemma unprompted_print s : Cli.unprompted (Cli.print s).
Proof. intros w. reflexivity. Qed.

Lemma unprompted_try_generate_content p :
  Cli.unprompted (Cli.try_generate_content p).
Proof. intros w. reflexivity. Qed.

Lemma unprompted_try_get_dict ps : Cli.unprompted (Cli.try_get_dict ps).
Proof. intros w. reflexivity. Qed.

Lemma unprompted_try_youtube_search k q :
  Cli.unprompted (Cli.try_youtube_search k q).
Proof. intros w. reflexivity. Qed.

Lemma unprompted_bind {A B} (m : Cli.C A) (k : A -> Cli.C B) :
  Cli.unprompted m -> (forall a, Cli.unprompted (k a)) ->
  Cli.unprompted (Cli.bind m k).
Proof.
  intros Hm Hk w. rewrite cli_bind_run. specialize (Hm w).
  destruct (m w) as [[a|e] t]; cbn [snd] in *; [|assumption].
  rewrite prompts_app, Hm, (Hk a w). reflexivity.
Qed.

Lemma unprompted_for_each {A} (body : nat -> A -> Cli.C unit) i l :
  (forall i x, Cli.unprompted (body i x)) ->
  Cli.unprompted (Cli.for_each body i l).
Proof.
  intros Hb. revert i. induction l as [|x l IH]; intros i; cbn [Cli.for_each].
  - apply unprompted_ret.
  - apply unprompted_bind; [apply Hb|]. intros _. apply IH.
Qed.

Ltac unprompted_step :=
  first
    [ apply unprompted_ret | apply unprompted_lift | apply unprompted_print
    | apply unprompted_try_generate_content | apply unprompted_try_get_dict
    | apply unprompted_try_youtube_search
    | apply unprompted_for_each | apply unprompted_bind
    | match goal with
      | |- forall _, _ => intro
      | |- Cli.unprompted (match ?x with _ => _ end) => destruct x
      end ].

Lemma unprompted_turn env q : Cli.unprompted (Cli.turn env q).
Proof.
  unfold Cli.turn, Cli.ask, Cli.act, Cli.google_branch, Cli.youtube_branch,
    Cli.youtube_data_attempt, Cli.youtube_data_items, Cli.show_youtube_items,
    Cli.serpapi_youtube, Cli.print_google_result, Cli.print_youtube_item,
    Cli.print_serpapi_video.
  cbv zeta. repeat unprompted_step.
Qed.

Lemma loop_step env l rest w :
  Cli.leaves l = false ->
  Cli.loop env (Cli.Line l :: rest) w
  = match Cli.turn env (PyStr.strip l) w with
    | (Return _, t) =>
        (fst (Cli.loop env rest w),
         Cli.Prompt Cli.enter_prompt :: (t ++ snd (Cli.loop env rest w))%list)
    | (Raise e, t) => (Raise e, Cli.Prompt Cli.enter_prompt :: t)
    end.
Proof.
  intros Hl. unfold Cli.leaves in Hl. cbn [Cli.loop]. rewrite cli_bind_run.
  unfold Cli.show_prompt. cbn [fst snd app]. rewrite Hl.
  rewrite cli_bind_run.
  destruct (Cli.turn env (PyStr.strip l) w) as [[[]|e] t]; reflexivity.
Qed.

Lemma loop_leave env l rest w :
  Cli.leaves l = true ->
  Cli.loop env (Cli.Line l :: rest) w
  = (Return tt, [Cli.Prompt Cli.enter_prompt; Cli.Print "Goodbye!"]).
Proof.
  intros Hl. unfold Cli.leaves in Hl. cbn [Cli.loop]. rewrite cli_bind_run.
  unfold Cli.show_prompt. cbn [fst snd app]. rewrite Hl. reflexivity.
Qed.

(** X20. Nothing is read after a word of leave or an interrupt: a session
    whose inputs hold a line that strips to nothing, or to "exit" or
    "quit" in any case, runs as if that line were the last input, and a
    session interrupted at a prompt runs as if the input ended there,
    whatever was typed before. *)
Theorem nothing_is_read_after_leave env pre rest w :
  (forall l,
      Cli.leaves l = true ->
      Cli.loop env (pre ++ Cli.Line l :: rest) w
      = Cli.loop env (pre ++ [Cli.Line l]) w)
  /\ Cli.loop env (pre ++ Cli.KeyboardInterrupt :: rest) w = Cli.loop env pre w.
Proof.
  induction pre as [|[l0|] pre [IH1 IH2]]; cbn [app].
  - split; [|reflexivity].
    intros l Hl. rewrite !loop_leave by assumption. reflexivity.
  - destruct (Cli.leaves l0) eqn:Hl0.
    + split; intros; rewrite !loop_leave by assumption; reflexivity.
    + split; intros; rewrite !loop_step by assumption.
      * rewrite IH1 by assumption. reflexivity.
      * rewrite IH2. reflexivity.
  - split; reflexivity.
Qed.

(** X21. A session of the loop that does not crash ends with a goodbye:
    its last event is the printing of "Goodbye!" (after a word of leave)
    or of the same on a new line (at the end of the input or an
    interrupt); it shows at least one prompt and at most one more than
    there are inputs. *)
Theorem session_ends_with_goodbye env inputs w t :
  Cli.loop env inputs w = (Return tt, t) ->
  (exists t', t = (t' ++ [Cli.Print "Goodbye!"])%list
              \/ t = (t' ++ [Cli.Print (PyStr.newline ++ "Goodbye!")])%list)
  /\ 1 <= Cli.prompts t <= S (length inputs).
Proof.
  revert t. induction inputs as [|[l|] inputs IH]; intros t H.
  - injection H as <-. split; [exists [Cli.Prompt Cli.enter_prompt]; auto|].
    simpl. lia.
  - destruct (Cli.leaves l) eqn:Hl.
    + rewrite (loop_leave env l inputs w Hl) in H. injection H as <-.
      split; [exists [Cli.Prompt Cli.enter_prompt]; auto|]. simpl. lia.
    + rewrite (loop_step env l inputs w Hl) in H.
      pose proof (unprompted_turn env (PyStr.strip l) w) as Hp.
      destruct (Cli.turn env (PyStr.strip l) w) as [[[]|e] t0];
        [|discriminate].
      destruct (Cli.loop env inputs w) as [o t1]. cbn [fst snd] in *.
      injection H as -> <-.
      destruct (IH t1 eq_refl) as [[t' Ht'] Hn]. split.
      * exists (Cli.Prompt Cli.enter_prompt :: t0 ++ t')%list.
        destruct Ht' as [->| ->]; [left|right];
          cbn [app]; rewrite <- app_assoc; reflexivity.
      * cbn [Cli.prompts length]. rewrite prompts_app, Hp. lia.
  - injection H as <-. split; [exists [Cli.Prompt Cli.enter_prompt]; auto|].
    simpl. lia.
Qed.

(** X22. [main] calls no service unless it has all it needs and a query:
    if a run of [main] makes any call, then GEMINI_API_KEY is set and not
    empty, the Gemini SDK is installed, the model loaded, and the first
    input is a line that is no word of leave. *)
Theorem no_call_without_key_and_query env inputs w :
  Cli.calls (snd (Cli.main env inputs w)) <> [] ->
  configured (Cli.GEMINI_API_KEY env) <> None
  /\ Cli.genai_installed env = true
  /\ Cli.model_error env = None
  /\ exists l rest, inputs = Cli.Line l :: rest /\ Cli.leaves l = false.
Proof.
  unfold Cli.main.
  destruct (configured (Cli.GEMINI_API_KEY env)); [|intros []; reflexivity].
  destruct (Cli.genai_installed env); cbn [negb]; [|intros []; reflexivity].
  destruct (Cli.model_error env); [intros []; reflexivity|].
  intros H. repeat split; try discriminate.
  destruct inputs as [|[l|] rest]; try (destruct H; reflexivity).
  exists l, rest. split; [reflexivity|].
  destruct (Cli.leaves l) eqn:Hl; [|reflexivity].
  rewrite (loop_leave env l rest w Hl) in H. destruct H. reflexivity.
Qed.

End Trial.

(** ** The properties at sample inputs *)

#[local] Existing Instance sample_unicode.

Example strip_lower_examples :
  PyStr.strip (String (ascii_of_nat 9) " a b  " ++ PyStr.newline) = "a b"
  /\ PyStr.lower "YouTube" = "youtube"
  /\ PyStr.strip "   " = "".
Proof. repeat split; reflexivity. Qed.

(** White space beyond ASCII is stripped as well, inside a text it stays,
    and other characters of several bytes are kept. *)
Example strip_unicode_examples :
  PyStr.strip ("GOOGLE" ++ PyStr.nbsp) = "GOOGLE"
  /\ PyStr.strip (PyStr.ideographic_space ++ " " ++ PyStr.nbsp) = ""
  /\ PyStr.strip (PyStr.nbsp ++ "a" ++ PyStr.nbsp ++ "b"
                  ++ PyStr.ideographic_space)
     = "a" ++ PyStr.nbsp ++ "b"
  /\ PyStr.strip (" " ++ PyStr.em_dash ++ " ") = PyStr.em_dash
  /\ Cli.leaves (PyStr.nbsp ++ "Exit" ++ PyStr.ideographic_space) = true.
Proof. repeat split; reflexivity. Qed.

(** A token padded with U+00A0 routes, and a query of white space beyond
    ASCII is refused before any call. *)
Example unicode_white_space_runs :
  search pydantic2 both_keys cats nbsp_token_world
  = (Return (google_videos_response
               [serpapi_record "1" "a" "C"; serpapi_record "2" "b" "C";
                serpapi_record "3" "c" "C"; serpapi_record "4" "d" "C";
                serpapi_record "5" "e" "C"]),
     [GeminiGenerate (prompt "cats");
      SerpApiSearch (google_videos_params "cats" "serp-key")])
  /\ search pydantic2 both_keys unicode_blank prose_world
     = (Raise (HTTPException 400 "Query must not be empty"), []).
Proof. split; reflexivity. Qed.

(** [repr] escapes what is not printable, within ASCII and beyond. *)
Example repr_unicode_examples :
  Py.repr (JStr ("a" ++ PyStr.nbsp ++ "b")) = "'a\xa0b'"
  /\ Py.repr (JStr PyStr.ideographic_space) = "'\u3000'"
  /\ Py.repr (JStr PyStr.em_dash) = "'" ++ PyStr.em_dash ++ "'"
  /\ Py.repr (JStr (String (ascii_of_nat 9) (String (ascii_of_nat 127) "")))
     = "'\t\x7f'".
Proof. repeat split; reflexivity. Qed.

Example repr_examples :
  Py.repr (JList [JStr "a'b"; JNum (-12); JNull; JDict [("k", JBool true)]])
  = "[" ++ PyStr.dquote ++ "a'b" ++ PyStr.dquote ++ ", -12, None, {'k': True}]"
  /\ Py.str (JNum 0) = "0"
  /\ Py.str (JStr "abc123") = "abc123".
Proof. repeat split; reflexivity. Qed.

(** A "channel" that is not a dict has no [.get]: the item cannot be
    normalised. *)
Example channel_as_text_raises :
  channel_of (JDict channel_as_text) = Raise Uncaught.
Proof. reflexivity. Qed.

(** pydantic 1 keeps a numeric view count as text, pydantic 2 refuses it. *)
Example numeric_views :
  google_videos_result pydantic1
    (JDict [("title", JStr "t"); ("link", JStr "l"); ("views", JNum 12)])
  = Return {| title := "t"; link := "l"; description := None;
              channel := None; views := Some "12" |}
  /\ google_videos_result pydantic2
       (JDict [("title", JStr "t"); ("link", JStr "l"); ("views", JNum 12)])
     = Raise Uncaught.
Proof. split; reflexivity. Qed.

Lemma empty_query_rejected_witness :
  search pydantic2 both_keys {| query := "   " |} prose_world
  = (Raise (HTTPException 400 "Query must not be empty"), [])
  /\ search pydantic2 both_keys unicode_blank prose_world
     = (Raise (HTTPException 400 "Query must not be empty"), []).
Proof.
  split.
  - apply (empty_query_rejected pydantic2 both_keys {| query := "   " |}
             prose_world).
    reflexivity.
  - apply (empty_query_rejected pydantic2 both_keys unicode_blank prose_world).
    reflexivity.
Defined.

Lemma direct_answer_verbatim_witness :
  search pydantic2 both_keys cats prose_world
  = (Return {| source := "gemini"; answer := Some "Try google or youtube.";
               results := None |},
     [GeminiGenerate (prompt "cats")]).
Proof.
  apply (direct_answer_verbatim pydantic2 both_keys cats prose_world
           " Try google or youtube. ");
    solve [reflexivity | vm_compute; discriminate].
Defined.

Lemma empty_answer_unroutable_witness :
  search pydantic2 both_keys cats blank_world
  = (Raise (HTTPException 422
              "Unable to determine search method; try rephrasing"),
     [GeminiGenerate (prompt "cats")]).
Proof.
  apply (empty_answer_unroutable pydantic2 both_keys cats blank_world "  ");
    solve [reflexivity | vm_compute; discriminate].
Defined.

Lemma google_videos_no_match_witness :
  search pydantic2 serpapi_only cats no_match_world
  = (Return {| source := "google_videos"; answer := None; results := Some [] |},
     [GeminiGenerate (prompt "cats");
      SerpApiSearch (google_videos_params "cats" "serp-key")]).
Proof.
  apply (google_videos_no_match pydantic2 serpapi_only cats no_match_world
           "GOOGLE" "serp-key" [("search_metadata", JDict [])]);
    solve [reflexivity | vm_compute; discriminate].
Defined.

Lemma missing_serpapi_key_is_an_error_witness :
  search pydantic2 empty_serpapi_key cats google_six_world
  = (Raise (HTTPException 500 "SERPAPI_API_KEY not set"),
     [GeminiGenerate (prompt "cats")])
  /\ search pydantic2 youtube_only cats quota_world
     = (Raise (HTTPException 500 "No YouTube search API key available"),
        [GeminiGenerate (prompt "cats"); YouTubeSearchList "yt-key" "cats"]).
Proof.
  split.
  - apply (missing_serpapi_key_is_an_error pydantic2 empty_serpapi_key cats
             google_six_world "Google");
      solve [reflexivity | vm_compute; discriminate].
  - apply (missing_serpapi_key_is_an_error pydantic2 youtube_only cats
             quota_world "YouTube");
      solve [reflexivity | exact I | vm_compute; discriminate].
Defined.



Lemma youtube_branch_falls_back_witness :
  search pydantic2 both_keys cats quota_world
  = (Return (youtube_response
               [serpapi_record "1" "a" "C"; serpapi_record "2" "b" "C";
                serpapi_record "3" "c" "C"; serpapi_record "4" "d" "C";
                serpapi_record "5" "e" "C"]),
     [GeminiGenerate (prompt "cats"); YouTubeSearchList "yt-key" "cats";
      SerpApiSearch (youtube_params "cats" "serp-key")]).
Proof.
  destruct (youtube_branch_falls_back pydantic2 both_keys cats quota_world
              "YouTube") as (_ & H & _);
    [vm_compute; discriminate | reflexivity | reflexivity |].
  destruct (H I) as [E _]. rewrite E. reflexivity.
Defined.

Lemma results_cut_on_serpapi_paths_witness :
  (exists rs,
      fst (search pydantic2 serpapi_only cats google_six_world)
      = Return (google_videos_response rs)
      /\ length rs = 5)
  /\ (exists rs,
         fst (search pydantic2 both_keys cats quota_world)
         = Return (youtube_response rs)
         /\ length rs = 5)
  /\ (exists rs,
         fst (search pydantic2 both_keys cats youtube_six_world)
         = Return (youtube_response rs)
         /\ length rs = 6).
Proof.
  split; [|split].
  - destruct (results_cut_on_serpapi_paths pydantic2 serpapi_only cats
                google_six_world "Google" six_serpapi_items)
      as (H & _ & _);
      [vm_compute; discriminate | reflexivity |].
    destruct (H eq_refl "serp-key"
                [("video_results", JList six_serpapi_items)])
      as (rs & E & L & _);
      [reflexivity | reflexivity | reflexivity
      | repeat constructor; eexists; reflexivity |].
    exists rs. split; assumption.
  - destruct (results_cut_on_serpapi_paths pydantic2 both_keys cats
                quota_world "YouTube" six_serpapi_items)
      as (_ & H & _);
      [vm_compute; discriminate | reflexivity |].
    destruct (H eq_refl I "serp-key"
                [("video_results", JList six_serpapi_items)])
      as (rs & E & L & _);
      [reflexivity | reflexivity | reflexivity
      | repeat constructor; eexists; reflexivity |].
    exists rs. split; assumption.
  - destruct (results_cut_on_serpapi_paths pydantic2 both_keys cats
                youtube_six_world "youtube" six_youtube_items)
      as (_ & _ & H);
      [vm_compute; discriminate | reflexivity |].
    destruct (H eq_refl "yt-key" [("items", JList six_youtube_items)])
      as (rs & E & L & _);
      [reflexivity | reflexivity | reflexivity | discriminate
      | repeat constructor; eexists; reflexivity |].
    exists rs. split; assumption.
Defined.

(** Against C4 as stated: six items of the YouTube Data API come back as
    six records, not five. *)
Lemma youtube_data_list_not_cut :
  length six_youtube_items = 6
  /\ exists rs,
       fst (search pydantic2 both_keys cats youtube_six_world)
       = Return (youtube_response rs)
       /\ length rs = 6 /\ length rs <> 5.
Proof.
  split; [reflexivity|].
  eexists. split; [reflexivity|]. split; [reflexivity|discriminate].
Qed.

(** ** The further properties at sample inputs *)

Lemma upstream_errors_surface_as_502_witness :
  search pydantic2 both_keys cats gemini_down_world
  = (Raise (HTTPException 502 "Gemini API error: 503 unavailable"),
     [GeminiGenerate (prompt "cats")])
  /\ search pydantic2 both_keys cats serpapi_down_world
     = (Raise (HTTPException 502 "SerpAPI error: timed out"),
        [GeminiGenerate (prompt "cats");
         SerpApiSearch (google_videos_params "cats" "serp-key")])
  /\ search pydantic2 both_keys cats all_down_world
     = (Raise (HTTPException 502 "SerpAPI YouTube error: timed out"),
        [GeminiGenerate (prompt "cats"); YouTubeSearchList "yt-key" "cats";
         SerpApiSearch (youtube_params "cats" "serp-key")]).
Proof.
  split; [|split].
  - apply (upstream_errors_surface_as_502 pydantic2 both_keys cats
             gemini_down_world);
      solve [reflexivity | vm_compute; discriminate].
  - apply (upstream_errors_surface_as_502 pydantic2 both_keys cats
             serpapi_down_world) with (text := "google");
      solve [reflexivity | vm_compute; discriminate].
  - apply (upstream_errors_surface_as_502 pydantic2 both_keys cats
             all_down_world) with (text := "youtube");
      solve [reflexivity | exact I | vm_compute; discriminate].
Defined.

Lemma http_errors_taxonomy_witness :
  (502 = 400 /\ "SerpAPI error: timed out" = "Query must not be empty")
  \/ (502 = 422
      /\ "SerpAPI error: timed out"
         = "Unable to determine search method; try rephrasing")
  \/ (502 = 500
      /\ ("SerpAPI error: timed out" = "SERPAPI_API_KEY not set"
          \/ "SerpAPI error: timed out" = "No YouTube search API key available"))
  \/ (502 = 502
      /\ exists e, "SerpAPI error: timed out" = "Gemini API error: " ++ e
                   \/ "SerpAPI error: timed out" = "SerpAPI error: " ++ e
                   \/ "SerpAPI error: timed out" = "SerpAPI YouTube error: " ++ e).
Proof.
  apply (http_errors_taxonomy pydantic2 both_keys cats serpapi_down_world).
  reflexivity.
Defined.

Lemma response_shape_witness :
  let r := gemini_response "Try google or youtube." in
  (source r = "gemini" /\ results r = None
   /\ exists a, answer r = Some a /\ a <> "" /\ PyStr.strip a = a
                /\ PyStr.lower a <> "google" /\ PyStr.lower a <> "youtube")
  \/ (source r = "google_videos" /\ answer r = None
      /\ exists rs, results r = Some rs /\ length rs <= 5)
  \/ (source r = "youtube" /\ answer r = None
      /\ exists rs, results r = Some rs).
Proof.
  apply (response_shape pydantic2 both_keys cats prose_world). reflexivity.
Defined.

Lemma at_most_five_results_witness :
  length [youtube_record "1" "a" "C"; youtube_record "2" "b" "C"] <= 5.
Proof.
  apply (at_most_five_results pydantic2 both_keys cats youtube_two_world
           (youtube_response
              [youtube_record "1" "a" "C"; youtube_record "2" "b" "C"])).
  - intros key resp H. injection H as <-.
    exists [youtube_item "1" "a" "C"; youtube_item "2" "b" "C"].
    split; [reflexivity|]. simpl. lia.
  - reflexivity.
  - reflexivity.
Defined.

Lemma entries_beyond_the_fifth_ignored_witness :
  search pydantic2 serpapi_only cats google_six_world
  = search pydantic2 serpapi_only cats google_tail_world.
Proof.
  refine (proj1 (entries_beyond_the_fifth_ignored pydantic2 serpapi_only cats
           google_six_world google_tail_world "Google" "serp-key"
           [("video_results", JList six_serpapi_items)]
           [("video_results",
             JList (firstn 5 six_serpapi_items ++ [JNull; JStr "x"])%list)]
           six_serpapi_items
           (firstn 5 six_serpapi_items ++ [JNull; JStr "x"])%list
           _ _ _ _ _ _ _) _ _ _);
    solve [reflexivity | vm_compute; discriminate].
Defined.

Lemma one_bad_item_fails_the_request_witness :
  fst (search pydantic2 both_keys cats youtube_bad_item_world) = Raise Uncaught.
Proof.
  apply (one_bad_item_fails_the_request pydantic2 both_keys cats
           youtube_bad_item_world "youtube"
           [youtube_item "1" "a" "C";
            JDict [("snippet", JDict [("title", JStr "2");
                                      ("channelTitle", JStr "C")])]])
    with (key := "yt-key")
         (resp := [("items",
                    JList [youtube_item "1" "a" "C";
                           JDict [("snippet", JDict [("title", JStr "2");
                                                     ("channelTitle", JStr "C")])]])]);
    try solve [reflexivity | vm_compute; discriminate].
  apply Exists_cons_tl. apply Exists_cons_hd. intros r. discriminate.
Defined.

Lemma each_branch_reads_its_own_key_witness :
  search pydantic2 youtube_only cats youtube_two_world
  = search pydantic2 both_keys cats youtube_two_world
  /\ snd (search pydantic2 both_keys cats youtube_two_world)
     = [GeminiGenerate (prompt "cats"); YouTubeSearchList "yt-key" "cats"].
Proof.
  apply (each_branch_reads_its_own_key pydantic2 both_keys youtube_only cats
           youtube_two_world "youtube")
    with (resp := [("items", JList [youtube_item "1" "a" "C";
                                    youtube_item "2" "b" "C"])]);
    solve [reflexivity | vm_compute; discriminate].
Defined.


Lemma token_case_and_padding_ignored_witness :
  search pydantic2 both_keys cats quota_world
  = search pydantic2 both_keys cats padded_token_world.
Proof.
  apply (token_case_and_padding_ignored pydantic2 both_keys cats quota_world
           padded_token_world "YouTube" "  youtube  ");
    solve [reflexivity | vm_compute; discriminate | right; reflexivity].
Defined.

Lemma prompt_tells_the_query_witness : "cats" = "cats".
Proof. apply prompt_tells_the_query. reflexivity. Defined.

Lemma youtube_records_have_no_description_witness :
  exists rs,
    results (youtube_response
               [serpapi_record "1" "a" "C"; serpapi_record "2" "b" "C";
                serpapi_record "3" "c" "C"; serpapi_record "4" "d" "C";
                serpapi_record "5" "e" "C"]) = Some rs
    /\ Forall (fun v => description v = None) rs.
Proof.
  apply (youtube_records_have_no_description pydantic2 both_keys cats
           quota_world); reflexivity.
Defined.

Lemma missing_fields_of_an_item_witness :
  google_videos_result pydantic2 (JDict bare_item)
  = Return {| title := ""; link := ""; description := None;
              channel := Some "flat"; views := None |}
  /\ serpapi_youtube_result pydantic2 (JDict bare_item)
     = Return {| title := ""; link := ""; description := None;
                 channel := Some "flat"; views := None |}
  /\ google_videos_result pydantic2 (JDict numeric_title) = Raise Uncaught
  /\ youtube_data_result pydantic2 (JDict bare_item) = Raise Uncaught.
Proof.
  destruct (missing_fields_of_an_item pydantic2 bare_item)
    as (Hg & Hs & _ & _ & Hy).
  destruct (missing_fields_of_an_item pydantic2 numeric_title)
    as (_ & _ & _ & Hr & _).
  split; [apply (Hg None None None (Some "flat") None); reflexivity|].
  split; [apply (Hs None None (Some "flat") None); reflexivity|].
  split; [apply (Hr (JNum 1)); [left|]; reflexivity|].
  apply Hy. left. reflexivity.
Defined.

Lemma served_alike_by_any_pydantic_witness :
  search pydantic1 both_keys cats quota_world
  = search pydantic2 both_keys cats quota_world.
Proof.
  apply served_alike_by_any_pydantic. vm_compute. discriminate.
Defined.

(** ** The properties of the command-line trial at sample inputs *)

Lemma cli_makes_the_calls_of_the_api_witness :
  Cli.calls (snd (Cli.turn cli_ready "cats" quota_world))
  = snd (search pydantic2 both_keys {| query := " cats " |} quota_world).
Proof.
  apply (cli_makes_the_calls_of_the_api pydantic2 cli_ready " cats " quota_world);
    solve [reflexivity | vm_compute; discriminate].
Defined.

Lemma cli_answers_what_the_api_answers_witness :
  Cli.turn cli_ready "cats" prose_world
  = (Return tt,
     [Cli.Call (GeminiGenerate (prompt "cats"));
      Cli.Print (PyStr.newline ++ "💡 Gemini Answer:" ++ PyStr.newline);
      Cli.Print "Try google or youtube."]).
Proof.
  apply (cli_answers_what_the_api_answers pydantic2 cli_ready " cats "
           prose_world "Try google or youtube.").
  - vm_compute. discriminate.
  - reflexivity.
Defined.

Lemma cli_reports_upstream_failures_witness :
  Cli.turn cli_ready "cats" gemini_down_world
  = (Return tt,
     [Cli.Call (GeminiGenerate (prompt "cats"));
      Cli.Print "Error: Gemini API call failed: 503 unavailable";
      Cli.Print "⚠️ Unable to answer or determine search method. Please try rephrasing."])
  /\ fst (Cli.turn cli_ready "cats" all_down_world) = Return tt.
Proof.
  split.
  - apply (cli_reports_upstream_failures cli_ready "cats" gemini_down_world).
    reflexivity.
  - refine (proj1 (proj2 (proj2 (cli_reports_upstream_failures cli_ready "cats"
                                   all_down_world))
                     "youtube" "serp-key" "timed out" _ _ _ _ _ _ _));
      solve [reflexivity | exact I].
Defined.

Lemma nothing_is_read_after_leave_witness :
  Cli.loop cli_ready [Cli.Line "cats"; Cli.Line " Quit "; Cli.Line "dogs"]
    prose_world
  = Cli.loop cli_ready [Cli.Line "cats"; Cli.Line " Quit "] prose_world.
Proof.
  apply (nothing_is_read_after_leave cli_ready [Cli.Line "cats"]
           [Cli.Line "dogs"] prose_world).
  reflexivity.
Defined.

Lemma session_ends_with_goodbye_witness :
  (exists t',
      snd (Cli.loop cli_ready [Cli.Line "cats"] prose_world)
      = (t' ++ [Cli.Print "Goodbye!"])%list
      \/ snd (Cli.loop cli_ready [Cli.Line "cats"] prose_world)
         = (t' ++ [Cli.Print (PyStr.newline ++ "Goodbye!")])%list)
  /\ 1 <= Cli.prompts (snd (Cli.loop cli_ready [Cli.Line "cats"] prose_world))
     <= 2.
Proof.
  apply (session_ends_with_goodbye cli_ready [Cli.Line "cats"] prose_world).
  reflexivity.
Defined.

Lemma no_call_without_key_and_query_witness :
  configured (Cli.GEMINI_API_KEY cli_ready) <> None
  /\ Cli.genai_installed cli_ready = true
  /\ Cli.model_error cli_ready = None
  /\ exists l rest,
       [Cli.Line "cats"] = Cli.Line l :: rest /\ Cli.leaves l = false.
Proof.
  apply (no_call_without_key_and_query cli_ready [Cli.Line "cats"] prose_world).
  vm_compute. discriminate.
Defined.

